(** * Personal Fitness Tracker ([app.py]): a shallow embedding and its properties

    The program keeps workout entries in one CSV file, loads them with
    pandas, derives summary statistics and weekly rollups, fits a
    one-feature linear regression and prints heuristic advice.

    Layout of this development:
    - Python strings, decimal text and the proleptic Gregorian calendar
      (the parts of [str], [datetime] and [csv] the program relies on);
    - the world the program runs in: system clock, the file
      [fitness_tracker.csv], the Streamlit screen;
    - the pandas fragment used by [load_data] and the analysis functions;
    - the program's functions, under their source names;
    - the properties.

    Number conventions.  An integer column holds [int64] values (as [Z];
    its sums wrap around).  What pandas computes in [float64] from such
    columns (means, quotients, the comparison with the efficiency) is
    written over a class [Floating] of arithmetics with two instances: IEEE
    binary64 ([PrimFloat]), the arithmetic the program runs in, and the
    rationals extended with the infinities and [nan], an idealisation for
    properties that no rounding touches.  The fit of scikit-learn's
    [LinearRegression] and the mean of a [float64] column are library
    routines whose rounding this development does not describe: they are
    parameters of the functions that call them.  The adjustments of the
    prediction page are stated over an abstract arithmetic [Number],
    instantiated with binary64. *)

From Stdlib Require Import ZArith QArith Qabs Bool List String Ascii Lia Lra Psatz.
From Stdlib Require Import DecimalString DecimalZ DecimalPos DecimalN.
From Stdlib Require Import Sorting.Sorted Sorting.Permutation.
From Stdlib Require Import PrimFloat Uint63.
From Stdlib Require Import Setoid Morphisms.
Import ListNotations.

Set Warnings "-inexact-float".
Open Scope string_scope.
Open Scope Z_scope.

(* ================================================================== *)
(** * Exceptions *)

(** The Python exceptions that the modelled calls can raise.  [Unmodelled]
    marks inputs on which pandas does something this development does not
    describe (see the comments at each use); no property concludes anything
    from it. *)
Inductive exn :=
| FileNotFoundError
| EmptyDataError
| ParserError
| KeyError (key : string)
| ValueError
| TypeError
| IndexError
| AttributeError
| Unmodelled.

Inductive result (A : Type) :=
| Ok (a : A)
| Raise (e : exn).
Arguments Ok {A} a.
Arguments Raise {A} e.

Definition bind {A B} (r : result A) (k : A -> result B) : result B :=
  match r with
  | Ok a => k a
  | Raise e => Raise e
  end.

Declare Scope py_scope.
Notation "x <- r ;; k" := (bind r (fun x => k))
  (at level 61, r at next level, right associativity) : py_scope.
Open Scope py_scope.

Fixpoint mapM {A B} (f : A -> result B) (l : list A) : result (list B) :=
  match l with
  | [] => Ok []
  | a :: l' => b <- f a ;; bs <- mapM f l' ;; Ok (b :: bs)
  end.

(* ================================================================== *)
(** * Python strings

    A [str] is modelled by [string]; its characters are the code points
    below 256. *)

(** [str.isspace] on one character: the code points below 256 with the
    Unicode White_Space property or bidirectional type WS, B or S. *)
Definition isspace (c : ascii) : bool :=
  let n := N_of_ascii c in
  (((9 <=? n) && (n <=? 13)) || ((28 <=? n) && (n <=? 32))
   || (n =? 133) || (n =? 160))%N.

Fixpoint lstrip (s : string) : string :=
  match s with
  | EmptyString => EmptyString
  | String c s' => if isspace c then lstrip s' else s
  end.

Fixpoint rstrip (s : string) : string :=
  match s with
  | EmptyString => EmptyString
  | String c s' =>
      match rstrip s' with
      | EmptyString => if isspace c then EmptyString else String c EmptyString
      | r => String c r
      end
  end.

(** [s.strip()] *)
Definition strip (s : string) : string := rstrip (lstrip s).

(** Truth value of a [str]: non-empty. *)
Definition truthy (s : string) : bool :=
  match s with EmptyString => false | _ => true end.

Fixpoint all_chars (p : ascii -> bool) (s : string) : bool :=
  match s with
  | EmptyString => true
  | String c s' => p c && all_chars p s'
  end.

(* ================================================================== *)
(** * Decimal text *)

(** [str(n)] for an [int] (of at most 4300 digits, from which on Python
    refuses the conversion). *)
Definition str_int (z : Z) : string := NilZero.string_of_int (Z.to_int z).

(** Body temperatures come from a slider with step 0.1; such a [float],
    the double nearest to [t / 10], is represented by its number of tenths
    [t], and [str] prints it with one fractional digit ([str(36.8) = "36.8"],
    [str(37.0) = "37.0"]).  This is what [str] prints while [t] has at most
    13 digits ([tenths_range]): further up the doubles are too far apart for
    tenths, and from [1e16] on [str] switches to the exponent form. *)
Definition str_tenths (t : Z) : string :=
  (if t <? 0 then "-" else "")
    ++ str_int (Z.abs t / 10) ++ "." ++ str_int (Z.abs t mod 10).

(** Splits at the first ['.']. *)
Fixpoint split_dot (s : string) : string * option string :=
  match s with
  | EmptyString => (EmptyString, None)
  | String c s' =>
      if Ascii.eqb c "." then (EmptyString, Some s')
      else let (i, f) := split_dot s' in (String c i, f)
  end.

Definition pow10 (n : nat) : positive := Pos.pow 10 (Pos.of_nat n).

(** Unsigned numeric literal: digits, optionally with one decimal point.
    The value of [i.f] is [(i * 10^|f| + f) / 10^|f|], exactly. *)
Definition parse_unsigned (s : string) : option Q :=
  match split_dot s with
  | (i, None) =>
      match NilZero.uint_of_string i with
      | Some d => Some (inject_Z (Z.of_uint d))
      | None => None
      end
  | (i, Some f) =>
      match NilEmpty.uint_of_string i, NilEmpty.uint_of_string f with
      | Some di, Some df =>
          if (String.length i + String.length f =? 0)%nat then None
          else
            match String.length f with
            | O => Some (inject_Z (Z.of_uint di))
            | S _ as k =>
                Some (Qmake (Z.of_uint di * Zpos (pow10 k) + Z.of_uint df) (pow10 k))
            end
      | _, _ => None
      end
  end.

(** Plain numeric literals: an optional sign and an unsigned literal.
    pandas converts more than these (exponent forms, infinities, padded
    numerals); see [infer_column] for the fields this development reads. *)
Definition parse_number (s : string) : option Q :=
  match s with
  | EmptyString => None
  | String c r =>
      if Ascii.eqb c "-" then option_map Qopp (parse_unsigned r)
      else if Ascii.eqb c "+" then parse_unsigned r
      else parse_unsigned s
  end.

Definition is_number (s : string) : bool :=
  match parse_number s with Some _ => true | None => false end.

(** The range of [int64]. *)
Definition int64_min : Z := - 2 ^ 63.
Definition int64_max : Z := 2 ^ 63 - 1.

Definition fits_int64 (z : Z) : bool := (int64_min <=? z) && (z <=? int64_max).

(** The tenths whose text [str] prints as [str_tenths] does, and which the
    reader converts back to the same double. *)
Definition tenths_range (t : Z) : bool := Z.abs t <? 10 ^ 13.

(** An integer in the range of [int64], in the form [str] prints. *)
Definition parse_int64 (s : string) : option Z :=
  match parse_number s with
  | Some q =>
      if String.eqb s (str_int (Qnum q)) && fits_int64 (Qnum q)
      then Some (Qnum q) else None
  | None => None
  end.

(** A number of tenths in [tenths_range], in the form [str] prints. *)
Definition parse_tenths (s : string) : option Z :=
  match parse_number s with
  | Some q =>
      if String.eqb s (str_tenths (Qnum q)) && tenths_range (Qnum q)
      then Some (Qnum q) else None
  | None => None
  end.

(* ================================================================== *)
(** * Calendar dates ([datetime.date]) *)

Record date := mkdate { year : Z; month : Z; day : Z }.

Definition date_eqb (a b : date) : bool :=
  (year a =? year b) && (month a =? month b) && (day a =? day b).

Definition _is_leap (y : Z) : bool :=
  (y mod 4 =? 0) && (negb (y mod 100 =? 0) || (y mod 400 =? 0)).

Definition _days_before_year (y : Z) : Z :=
  let y' := y - 1 in
  y' * 365 + y' / 4 - y' / 100 + y' / 400.

Definition _DAYS_IN_MONTH : list Z :=
  [-1; 31; 28; 31; 30; 31; 30; 31; 31; 30; 31; 30; 31].

Definition _DAYS_BEFORE_MONTH : list Z :=
  [-1; 0; 31; 59; 90; 120; 151; 181; 212; 243; 273; 304; 334].

Definition _days_in_month (y m : Z) : Z :=
  if (m =? 2) && _is_leap y then 29 else nth (Z.to_nat m) _DAYS_IN_MONTH 0.

Definition _days_before_month (y m : Z) : Z :=
  nth (Z.to_nat m) _DAYS_BEFORE_MONTH 0
  + (if (2 <? m) && _is_leap y then 1 else 0).

(** Proleptic Gregorian ordinal; 0001-01-01 is day 1. *)
Definition _ymd2ord (y m d : Z) : Z :=
  _days_before_year y + _days_before_month y m + d.

Definition toordinal (d : date) : Z := _ymd2ord (year d) (month d) (day d).

Definition valid_date (d : date) : bool :=
  (1 <=? year d) && (year d <=? 9999)
  && (1 <=? month d) && (month d <=? 12)
  && (1 <=? day d) && (day d <=? _days_in_month (year d) (month d)).

Definition _isoweek1monday (y : Z) : Z :=
  let firstday := _ymd2ord y 1 1 in
  let firstweekday := (firstday + 6) mod 7 in
  let week1monday := firstday - firstweekday in
  if 3 <? firstweekday then week1monday + 7 else week1monday.

(** [date.isocalendar()]: ISO year, ISO week number, ISO weekday.
    pandas' [Series.dt.isocalendar()] returns the same triple per row. *)
Definition isocalendar (d : date) : Z * Z * Z :=
  let y := year d in
  let today := toordinal d in
  let week := (today - _isoweek1monday y) / 7 in
  let wday := (today - _isoweek1monday y) mod 7 in
  if week <? 0 then
    let y1 := y - 1 in
    ((y1, (today - _isoweek1monday y1) / 7 + 1),
     (today - _isoweek1monday y1) mod 7 + 1)
  else if (52 <=? week) && (_isoweek1monday (y + 1) <=? today) then
    ((y + 1, 1), wday + 1)
  else ((y, week + 1), wday + 1).

Definition iso_year (d : date) : Z := fst (fst (isocalendar d)).
Definition iso_week (d : date) : Z := snd (fst (isocalendar d)).

Definition digit_char (k : Z) : ascii := ascii_of_N (48 + Z.to_N k).

Definition pad2 (n : Z) : string :=
  String (digit_char (n / 10)) (String (digit_char (n mod 10)) EmptyString).

(** [d.strftime("%Y-%m-%d")]; [%Y] is the year in decimal without padding
    (four digits from year 1000 on). *)
Definition strftime_Ymd (d : date) : string :=
  str_int (year d) ++ "-" ++ pad2 (month d) ++ "-" ++ pad2 (day d).

Definition digit_val (c : ascii) : option Z :=
  let n := Z.of_N (N_of_ascii c) in
  if (48 <=? n) && (n <=? 57) then Some (n - 48) else None.

Definition is_digit (c : ascii) : bool :=
  match digit_val c with Some _ => true | None => false end.

Definition digits2 (a b : ascii) : option Z :=
  match digit_val a, digit_val b with
  | Some x, Some y => Some (10 * x + y)
  | _, _ => None
  end.

(** The text form [YYYY-MM-DD] of a calendar date. *)
Definition parse_Ymd (s : string) : option date :=
  match s with
  | String y1 (String y2 (String y3 (String y4 (String "-"
      (String m1 (String m2 (String "-"
        (String d1 (String d2 EmptyString))))))))) =>
      match digits2 y1 y2, digits2 y3 y4, digits2 m1 m2, digits2 d1 d2 with
      | Some yh, Some yl, Some m, Some d =>
          let r := mkdate (100 * yh + yl) m d in
          if valid_date r then Some r else None
      | _, _, _, _ => None
      end
  | _ => None
  end.

(** With nanoseconds in 64 bits a [pd.Timestamp] holds the days 1677-09-22
    .. 2262-04-11 entirely.  Every version of pandas loads the dates of this
    range; outside it pandas 2 raises [OutOfBoundsDatetime] and pandas 3
    changes the resolution, which is not modelled. *)
Definition Timestamp_min_day : Z := _ymd2ord 1677 9 22.
Definition Timestamp_max_day : Z := _ymd2ord 2262 4 11.

Definition in_Timestamp_range (d : date) : bool :=
  (Timestamp_min_day <=? toordinal d) && (toordinal d <=? Timestamp_max_day).

Definition NS_PER_DAY : Z := 86400 * 1000000000.

(** A naive local timestamp: a calendar day and the nanoseconds elapsed
    since its midnight. *)
Record Timestamp := mkts { ts_date : date; ts_nanos : Z }.

(** Position on the time line, in nanoseconds. *)
Definition instant (t : Timestamp) : Z :=
  toordinal (ts_date t) * NS_PER_DAY + ts_nanos t.

Definition midnight (d : date) : Timestamp := mkts d 0.

(* ================================================================== *)
(** * The world the program runs in *)

(** What the program shows through Streamlit. *)
Inductive widget :=
| st_error (msg : string)
| st_success (msg : string)
| st_warning (msg : string)
| st_info (msg : string)
| st_balloons
| st_workout_summary (workout_type : string) (duration calories heart_rate : Z).

(** A CSV file is the list of its rows, each the list of its fields as
    text.  The [csv] module's quoting and pandas' tokenizer implement the
    same dialect, so the byte level is left out. *)
Definition csv := list (list string).

(** [clock] is the system clock (local time); [disk] is the content of
    [FILENAME = "fitness_tracker.csv"], [None] when the file does not exist;
    [screen] collects the widgets shown, latest last. *)
Record World := mkWorld {
  clock : Timestamp;
  disk : option csv;
  screen : list widget
}.

Definition write_disk (w : World) (f : csv) : World :=
  mkWorld (clock w) (Some f) (screen w).

Definition show (w : World) (x : widget) : World :=
  mkWorld (clock w) (disk w) (screen w ++ [x])%list.

(** [datetime.date.today()] *)
Definition date_today (w : World) : date := ts_date (clock w).

(** [pd.Timestamp.now()] *)
Definition Timestamp_now (w : World) : Timestamp := clock w.

(* ================================================================== *)
(** * The record store *)

Definition HEADER : list string :=
  ["Date"; "Workout Type"; "Duration (mins)"; "Calories Burned";
   "Age"; "Gender"; "Heart Rate"; "Body Temperature"].

(** [open(FILENAME, 'x')] creates the file only when it is absent;
    [FileExistsError] is swallowed. *)
Definition initialize_file (w : World) : World :=
  match disk w with
  | None => write_disk w [HEADER]
  | Some _ => w
  end.

(** The row [writer.writerow] produces: every non-string value goes through
    [str]. *)
Definition csv_row (d : date) (workout_type : string) (duration calories age : Z)
    (gender : string) (heart_rate body_temp : Z) : list string :=
  [strftime_Ymd d; workout_type; str_int duration; str_int calories;
   str_int age; gender; str_int heart_rate; str_tenths body_temp].

(** [open(FILENAME, 'a')] followed by one [writerow]: the file is created
    when absent, and the row goes after the last one. *)
Definition append_row (w : World) (r : list string) : World :=
  match disk w with
  | None => write_disk w [r]
  | Some f => write_disk w (f ++ [r])%list
  end.

(** [body_temp] is in tenths of a degree (see [str_tenths]). *)
Definition log_workout (workout_type : string) (duration calories age : Z)
    (gender : string) (heart_rate body_temp : Z) (w : World) : bool * World :=
  if negb (truthy (strip workout_type)) then
    (false, show w (st_error "Please enter a workout type"))
  else
    let date := date_today w in
    (true, append_row w (csv_row date workout_type duration calories age
                           gender heart_rate body_temp)).

(** The body of [if submitted:] in the "Log Workout" page of [main].
    [log_workout] raises nothing in this model, so the [try] has no
    handler to run. *)
Definition submit_workout (workout_type : string) (duration calories age : Z)
    (gender : string) (heart_rate body_temp : Z) (w : World) : World :=
  if truthy workout_type && (0 <? duration) && (0 <? calories)
     && (0 <? age) && (0 <? heart_rate) then
    let (logged, w1) :=
      log_workout workout_type duration calories age gender heart_rate body_temp w in
    if logged then
      show (show (show w1 (st_success "Great job! Workout logged successfully!"))
              st_balloons)
        (st_workout_summary workout_type duration calories heart_rate)
    else w1
  else show w (st_error "Please fill in all required fields with valid values").

(* ================================================================== *)
(** * The pandas fragment *)

(** A column.  [Int64] is an [int64] column.  [Float64] is a [float64]
    column: a cell is given by the decimal it was read from and stands for
    the double nearest to it; [None] is [NaN].  [Object] is an [object]
    column of text and [Datetime64] is [datetime64[ns]] at midnight, with
    [None] for the missing value ([NaN], [NaT]). *)
Inductive Series :=
| Int64 (xs : list Z)
| Float64 (xs : list (option Q))
| Boolean (bs : list bool)
| Object (ss : list (option string))
| Datetime64 (ds : list (option date)).

(** Columns in order; all of one length. *)
Definition DataFrame := list (string * Series).

Inductive value :=
| NaN
| Int (z : Z)
| Num (q : Q)
| Bool (b : bool)
| Str (s : string)
| Time (d : date).

Definition opt_value {A} (f : A -> value) (o : option A) : value :=
  match o with Some a => f a | None => NaN end.

Definition values (s : Series) : list value :=
  match s with
  | Int64 xs => map Int xs
  | Float64 xs => map (opt_value Num) xs
  | Boolean bs => map Bool bs
  | Object ss => map (opt_value Str) ss
  | Datetime64 ds => map (opt_value Time) ds
  end.

Definition series_len (s : Series) : nat := List.length (values s).

(** [len(df)] *)
Definition len (df : DataFrame) : nat :=
  match df with
  | [] => O
  | (_, s) :: _ => series_len s
  end.

(** [df.empty] *)
Definition empty (df : DataFrame) : bool := (len df =? 0)%nat.

Definition column_names (df : DataFrame) : list string := map fst df.

(** [df[key]] *)
Fixpoint getitem (df : DataFrame) (key : string) : result Series :=
  match df with
  | [] => Raise (KeyError key)
  | (k, s) :: df' => if String.eqb k key then Ok s else getitem df' key
  end.

(** [df[key] = s]: replaces the column in place, or adds it last. *)
Fixpoint setitem (df : DataFrame) (key : string) (s : Series) : DataFrame :=
  match df with
  | [] => [(key, s)]
  | (k, s0) :: df' =>
      if String.eqb k key then (k, s) :: df' else (k, s0) :: setitem df' key s
  end.

(** [df.iloc[i]] as the list of the row's cells, and the frame as the list
    of its rows. *)
Definition iloc (df : DataFrame) (i : nat) : list value :=
  map (fun c => nth i (values (snd c)) NaN) df.

Definition to_records (df : DataFrame) : list (list value) :=
  map (iloc df) (seq 0 (len df)).

(** [pd.DataFrame(columns=names)]: no rows, every column of dtype object. *)
Definition DataFrame_columns (names : list string) : DataFrame :=
  map (fun n => (n, Object [])) names.

(** The strings [read_csv] takes for a missing value by default. *)
Definition na_values : list string :=
  [""; "#N/A"; "#N/A N/A"; "#NA"; "-1.#IND"; "-1.#QNAN"; "-NaN"; "-nan";
   "1.#IND"; "1.#QNAN"; "<NA>"; "N/A"; "NA"; "NULL"; "NaN"; "None";
   "n/a"; "nan"; "null"].

Definition is_na (s : string) : bool := existsb (String.eqb s) na_values.

Definition true_values : list string := ["True"; "TRUE"; "true"].
Definition false_values : list string := ["False"; "FALSE"; "false"].

Definition is_bool (s : string) : bool :=
  existsb (String.eqb s) true_values || existsb (String.eqb s) false_values.

Definition is_letter (c : ascii) : bool :=
  let n := N_of_ascii c in
  (((65 <=? n) && (n <=? 90)) || ((97 <=? n) && (n <=? 122)))%N.

Definition printable (c : ascii) : bool :=
  let n := N_of_ascii c in ((32 <=? n) && (n <=? 126))%N.

Definition ascii_lower (c : ascii) : ascii :=
  let n := N_of_ascii c in
  if ((65 <=? n) && (n <=? 90))%N then ascii_of_N (n + 32) else c.

Fixpoint str_lower (s : string) : string :=
  match s with
  | EmptyString => EmptyString
  | String c s' => String (ascii_lower c) (str_lower s')
  end.

(** Words the reader takes, in any letter case, for a boolean or a
    number. *)
Definition reserved_words : list string :=
  ["true"; "false"; "inf"; "infinity"; "nan"].

(** Printable ASCII text that starts with a letter and is no reserved
    word. *)
Definition plain_text (s : string) : bool :=
  match s with
  | EmptyString => false
  | String c _ =>
      is_letter c && all_chars printable s
      && negb (existsb (String.eqb (str_lower s)) reserved_words)
  end.

Definition is_Ymd (s : string) : bool :=
  match parse_Ymd s with Some _ => true | None => false end.

(** A field that [read_csv] gives back as the same text.  The reader takes
    a field for a number only when, after blanks, it starts with a digit, a
    sign or a point, or is an infinity word; so a [plain_text] field that is
    no missing-value marker stays text, and so does a date [YYYY-MM-DD],
    which stops being a number at its first hyphen. *)
Definition reads_as_text (s : string) : bool :=
  negb (is_na s) && negb (is_number s) && negb (is_bool s)
  && (plain_text s || is_Ymd s).

(** What a cell of a [float64] column holds: a missing value, an integer
    of at most 15 digits or a number of tenths ([None]: not such a cell). *)
Definition float64_cell (c : string) : option (option Q) :=
  if is_na c then Some None
  else
    match parse_int64 c with
    | Some z => if Z.abs z <? 10 ^ 15 then Some (Some (inject_Z z)) else None
    | None =>
        match parse_tenths c with
        | Some t => Some (Some (t # 10))
        | None => None
        end
    end.

Fixpoint all_some {A} (l : list (option A)) : option (list A) :=
  match l with
  | [] => Some []
  | Some a :: l' => option_map (cons a) (all_some l')
  | None :: l' => None
  end.

(** Type inference of one column from its fields.  Missing-value markers
    alone give [float64]; integers alone give [int64]; integers, tenths and
    markers give [float64]; boolean literals alone give [bool]; fields that
    surely are text, with or without markers among them, give an [object]
    column that keeps the text as it is written.  A column without rows has
    dtype object.  Every other column is [Unmodelled]: it holds a field
    that pandas may convert (an exponent form, a padded numeral, an integer
    beyond [int64], a boolean in another letter case, a number next to
    text, ...), and what the column then becomes is not described here. *)
Definition infer_column (cells : list string) : result Series :=
  match cells with
  | [] => Ok (Object [])
  | _ =>
      if forallb is_na cells then Ok (Float64 (map (fun _ => None) cells))
      else
        match all_some (map parse_int64 cells) with
        | Some zs => Ok (Int64 zs)
        | None =>
            match all_some (map float64_cell cells) with
            | Some xs => Ok (Float64 xs)
            | None =>
                if forallb is_bool cells then
                  Ok (Boolean (map (fun c => existsb (String.eqb c) true_values) cells))
                else if forallb (fun c => is_na c || reads_as_text c) cells then
                  Ok (Object (map (fun c => if is_na c then None else Some c) cells))
                else Raise Unmodelled
            end
        end
  end.

(** [pd.read_csv(FILENAME)] with default options: the first row names the
    columns, and a short row is filled with missing values.  A row after
    the first data row that is longer than the header is a [ParserError].
    [Unmodelled]: a first data row longer than the header (pandas takes its
    leading fields for the index) and rows without any field (pandas skips
    blank lines).  Not modelled either: the renaming of duplicate or empty
    column names. *)
Definition read_csv (file : option csv) : result DataFrame :=
  match file with
  | None => Raise FileNotFoundError
  | Some [] => Raise EmptyDataError
  | Some (header :: rows) =>
      if existsb (fun r => (List.length r =? 0)%nat) (header :: rows)
      then Raise Unmodelled
      else if match rows with
              | first :: _ => (List.length header <? List.length first)%nat
              | [] => false
              end
      then Raise Unmodelled
      else if existsb (fun r => (List.length header <? List.length r)%nat) rows
      then Raise ParserError
      else mapM (fun j =>
                   column <- infer_column (map (fun r => nth j r "") rows) ;;
                   Ok (nth j header "", column))
             (seq 0 (List.length header))
  end.

Definition parse_timestamp (c : option string) : result (option date) :=
  match c with
  | None => Ok None
  | Some t =>
      match parse_Ymd t with
      | Some d => if in_Timestamp_range d then Ok (Some d) else Raise Unmodelled
      | None => Raise Unmodelled
      end
  end.

(** [pd.to_datetime(s)].  Text is read in the form [YYYY-MM-DD] that
    [log_workout] writes, for the days of [in_Timestamp_range].  Other
    texts are [Unmodelled]: pandas accepts many more formats and raises
    [ValueError] on the rest.  Numbers are offsets from the Unix epoch in
    pandas, also [Unmodelled] here. *)
Definition to_datetime (s : Series) : result Series :=
  match s with
  | Datetime64 _ => Ok s
  | Object ss => ds <- mapM parse_timestamp ss ;; Ok (Datetime64 ds)
  | Float64 xs =>
      if forallb (fun x => match x with None => true | Some _ => false end) xs
      then Ok (Datetime64 (map (fun _ => None) xs))
      else Raise Unmodelled
  | Int64 _ => Raise Unmodelled
  | Boolean _ => Raise TypeError
  end.

(** [try: ... except FileNotFoundError: ...] *)
Definition except_FileNotFoundError {A} (body : result A) (handler : result A)
  : result A :=
  match body with
  | Raise FileNotFoundError => handler
  | _ => body
  end.

Definition load_data (w : World) : result DataFrame :=
  except_FileNotFoundError
    (df <- read_csv (disk w) ;;
     dates <- getitem df "Date" ;;
     dates' <- to_datetime dates ;;
     Ok (setitem df "Date" dates'))
    (Ok (DataFrame_columns
           ["Date"; "Workout Type"; "Duration (mins)"; "Calories Burned"])).

(* ------------------------------------------------------------------ *)
(** ** [float64] arithmetic

    The operations the program applies to [float64] values: the conversion
    of an [int64], the division and the comparison [<]. *)
Class Floating (E : Type) := {
  of_int64 : Z -> E;
  fdiv : E -> E -> E;
  flt : E -> E -> bool
}.

Definition float_of_Z (z : Z) : float :=
  match z with
  | Z0 => PrimFloat.of_uint63 0
  | Zpos _ => PrimFloat.of_uint63 (Uint63.of_Z z)
  | Zneg _ => PrimFloat.opp (PrimFloat.of_uint63 (Uint63.of_Z (- z)))
  end.

(** IEEE binary64, the arithmetic the program runs in.  The conversion is
    the rounding to nearest of an integer of absolute value below [2^63]
    (exact up to [2^53]). *)
#[global] Instance binary64 : Floating float := {
  of_int64 := float_of_Z;
  fdiv := PrimFloat.div;
  flt := PrimFloat.ltb
}.

(** The rationals with the infinities and [nan]: [float64] without
    rounding.  Signed zeros are not told apart: a zero divisor counts as
    [+0.0]. *)
Inductive float64 :=
| Finite (q : Q)
| PosInf
| NegInf
| NotANumber.

Definition exact_div (a b : float64) : float64 :=
  match a, b with
  | NotANumber, _ | _, NotANumber => NotANumber
  | Finite x, Finite y =>
      if Qeq_bool y 0 then
        match (x ?= 0)%Q with
        | Gt => PosInf
        | Lt => NegInf
        | Eq => NotANumber
        end
      else Finite (x / y)
  | Finite _, (PosInf | NegInf) => Finite 0
  | (PosInf | NegInf), (PosInf | NegInf) => NotANumber
  | PosInf, Finite y => match (y ?= 0)%Q with Lt => NegInf | _ => PosInf end
  | NegInf, Finite y => match (y ?= 0)%Q with Lt => PosInf | _ => NegInf end
  end.

(** [a < b] *)
Definition exact_lt (a b : float64) : bool :=
  match a, b with
  | NotANumber, _ | _, NotANumber => false
  | Finite x, Finite y => negb (Qle_bool y x)
  | Finite _, PosInf | NegInf, Finite _ | NegInf, PosInf => true
  | _, _ => false
  end.

#[global] Instance exact : Floating float64 := {
  of_int64 := fun z => Finite (inject_Z z);
  fdiv := exact_div;
  flt := exact_lt
}.

(** [s.mean()] on a column of [float64] values, [nan] skipped.  numpy adds
    the values in an order of its own (in blocks, and pandas may use
    another routine), so in binary64 the last digits of the result depend
    on the library: the mean is a parameter. *)
Class Mean (E : Type) := {
  fmean : list E -> E
}.

(* ------------------------------------------------------------------ *)
(** ** Reductions on columns *)

Fixpoint dropna {A} (l : list (option A)) : list A :=
  match l with
  | [] => []
  | Some a :: l' => a :: dropna l'
  | None :: l' => dropna l'
  end.

Definition Zsum (l : list Z) : Z := fold_right Z.add 0 l.

Definition Qsum (l : list Q) : Q := fold_right Qplus 0%Q l.

Definition Qlen {A} (l : list A) : Q := inject_Z (Z.of_nat (List.length l)).

(** The mean without rounding. *)
Definition exact_mean (l : list float64) : float64 :=
  let fin := dropna (map (fun v => match v with Finite q => Some q | _ => None end) l) in
  let has v := existsb (fun x => match x, v with
                                 | PosInf, PosInf | NegInf, NegInf => true
                                 | _, _ => false
                                 end) l in
  match has PosInf, has NegInf with
  | true, true => NotANumber
  | true, false => PosInf
  | false, true => NegInf
  | false, false =>
      match fin with
      | [] => NotANumber
      | _ => Finite (Qsum fin / Qlen fin)
      end
  end.

#[global] Instance exact_Mean : Mean float64 := {
  fmean := exact_mean
}.

(** Arithmetic in [int64] wraps around. *)
Definition wrap_int64 (z : Z) : Z := (z - int64_min) mod 2 ^ 64 + int64_min.

(** The cells of an [int64] column.  The reductions below are described
    for such columns, which is what the program's own rows give; on the
    other dtypes they are [Unmodelled]. *)
Definition int64_values (s : Series) : result (list Z) :=
  match s with
  | Int64 xs => Ok xs
  | _ => Raise Unmodelled
  end.

(** [s.sum()] *)
Definition Series_sum (s : Series) : result Z :=
  xs <- int64_values s ;; Ok (wrap_int64 (Zsum xs)).

(** [s.mean()]: pandas adds the cells as [float64] and divides by their
    number.  While the absolute values add up to at most [2^53] every
    partial sum is exact, whatever the order, and the result is the
    quotient below; beyond that the sum is rounded on the way, which the
    quotient below does not follow. *)
Definition Series_mean {E} `{Floating E} (s : Series) : result E :=
  xs <- int64_values s ;;
  Ok (fdiv (of_int64 (Zsum xs)) (of_int64 (Z.of_nat (List.length xs)))).

(** [s.notna()]; [s.count()] is the number of its true cells. *)
Definition notna (s : Series) : list bool :=
  map (fun v => match v with NaN => false | _ => true end) (values s).

Section Mode.
Context {A : Type} (eqb leb : A -> A -> bool).

Fixpoint count (x : A) (l : list A) : nat :=
  match l with
  | [] => O
  | y :: l' => ((if eqb x y then 1 else 0) + count x l')%nat
  end.

(** The distinct elements, in order of first appearance. *)
Fixpoint unique (l : list A) : list A :=
  match l with
  | [] => []
  | x :: l' => x :: filter (fun y => negb (eqb x y)) (unique l')
  end.

Definition max_count (l : list A) : nat :=
  fold_right Nat.max O (map (fun x => count x l) l).

Definition most_frequent (l : list A) : list A :=
  filter (fun x => (count x l =? max_count l)%nat) (unique l).

Fixpoint insert (x : A) (l : list A) : list A :=
  match l with
  | [] => [x]
  | y :: l' => if leb x y then x :: l else y :: insert x l'
  end.

Fixpoint sort (l : list A) : list A :=
  match l with
  | [] => []
  | x :: l' => insert x (sort l')
  end.

(** The most frequent values, in increasing order. *)
Definition modes (l : list A) : list A := sort (most_frequent l).
End Mode.

Definition date_leb (a b : date) : bool := toordinal a <=? toordinal b.

(** [s.mode()]: missing values are dropped, and the result is sorted. *)
Definition Series_mode (s : Series) : Series :=
  match s with
  | Int64 xs => Int64 (modes Z.eqb Z.leb xs)
  | Float64 xs => Float64 (map Some (modes Qeq_bool Qle_bool (dropna xs)))
  | Boolean bs => Boolean (modes Bool.eqb implb bs)
  | Object ss => Object (map Some (modes String.eqb String.leb (dropna ss)))
  | Datetime64 ds => Datetime64 (map Some (modes date_eqb date_leb (dropna ds)))
  end.

(** [s.iloc[0]] *)
Definition iloc0 (s : Series) : result value :=
  match values s with
  | v :: _ => Ok v
  | [] => Raise IndexError
  end.

(** [s.dt.isocalendar().week] *)
Definition dt_isocalendar_week (s : Series) : result (list (option Z)) :=
  match s with
  | Datetime64 ds => Ok (map (option_map iso_week) ds)
  | _ => Raise AttributeError
  end.

(** [s >= t] for a timestamp [t] given by its position on the time line;
    [NaT] compares false. *)
Definition ge_instant (s : Series) (t : Z) : result (list bool) :=
  match s with
  | Datetime64 ds =>
      Ok (map (fun o => match o with
                        | Some d => t <=? instant (midnight d)
                        | None => false
                        end) ds)
  | _ => Raise TypeError
  end.

(* ------------------------------------------------------------------ *)
(** ** scikit-learn's [LinearRegression] *)

Record LinearRegression (F : Type) := mkLR { coef_ : F; intercept_ : F }.
Arguments mkLR {F} _ _.
Arguments coef_ {F} _.
Arguments intercept_ {F} _.

(** The arithmetic a fitted model predicts in. *)
Class Number (F : Type) := {
  add : F -> F -> F;
  mul : F -> F -> F;
  of_int : Z -> F;
  (** the value of a decimal literal *)
  lit : Q -> F
}.

#[global] Instance Number_Q : Number Q := {
  add := Qplus;
  mul := Qmult;
  of_int := inject_Z;
  lit := fun q => q
}.

(** IEEE binary64, the arithmetic the program runs in.  A literal [n/d]
    with [n] and [d] below [2^53] is the correctly rounded quotient. *)
#[global] Instance Number_float : Number float := {
  add := PrimFloat.add;
  mul := PrimFloat.mul;
  of_int := float_of_Z;
  lit := fun q => PrimFloat.div (float_of_Z (Qnum q)) (float_of_Z (Zpos (Qden q)))
}.

(** [model.predict([[x]])[0]] *)
Definition predict {F} `{Number F} (model : LinearRegression F) (x : Z) : F :=
  add (mul (of_int x) (coef_ model)) (intercept_ model).

(** Input validation of [fit]: the cells as numbers; a missing value is a
    [ValueError]. *)
Definition as_float_array (s : Series) : result (list Q) :=
  match s with
  | Int64 xs => Ok (map inject_Z xs)
  | Float64 xs =>
      if forallb (fun x => match x with Some _ => true | None => false end) xs
      then Ok (dropna xs) else Raise ValueError
  | _ => Raise Unmodelled
  end.

(* ================================================================== *)
(** * The analysis functions of [app.py] *)

(** One row of [weekly_stats]; [Workout_Type] holds the count. *)
Record WeekRow := mkWeekRow {
  Week : Z;
  Calories_Burned : Z;
  Duration_mins : Z;
  Workout_Type : nat
}.

(** The cells of the rows whose key is [k]. *)
Definition select {A} (k : Z) (keys : list (option Z)) (xs : list A) : list A :=
  map snd
    (filter (fun p => match fst p with Some k' => k' =? k | None => false end)
       (combine keys xs)).

(** Lines 70-75 of [analyze_fitness_data]: the ['Week'] column and
    [data.groupby('Week').agg({...: 'sum', ...: 'sum', ...: 'count'})
    .reset_index()].  Groups come in increasing key order; rows without a key
    are left out; the sums are [int64] sums.  (The source also stores
    ['Week'] in the caller's frame, see [with_week].) *)
Definition weekly_stats (data : DataFrame) : result (list WeekRow) :=
  dates <- getitem data "Date" ;;
  weeks <- dt_isocalendar_week dates ;;
  let data := setitem data "Week" (Float64 (map (option_map inject_Z) weeks)) in
  calories <- getitem data "Calories Burned" ;;
  calories <- int64_values calories ;;
  durations <- getitem data "Duration (mins)" ;;
  durations <- int64_values durations ;;
  types <- getitem data "Workout Type" ;;
  Ok (map (fun k =>
             mkWeekRow k
               (wrap_int64 (Zsum (select k weeks calories)))
               (wrap_int64 (Zsum (select k weeks durations)))
               (List.length (filter (fun b : bool => b) (select k weeks (notna types)))))
        (sort Z.leb (unique Z.eqb (dropna weeks)))).

(** [a / b], element by element, for two [int64] columns: the cells are
    converted to [float64] and divided. *)
Definition div_series {E} `{Floating E} (a b : Series) : result (list E) :=
  xs <- int64_values a ;;
  ys <- int64_values b ;;
  Ok (map (fun p => fdiv (of_int64 (fst p)) (of_int64 (snd p))) (combine xs ys)).

Definition ADVICE_FREQUENCY : string :=
  "Consider increasing workout frequency to at least 3 times per week".

Definition ADVICE_EFFICIENCY : string :=
  "Try incorporating high-intensity intervals to improve workout efficiency".

(** The function has the two parameters [data] and [efficiency]; the time
    comes from [pd.Timestamp.now()], that is from the world. *)
Definition get_personalized_recommendations {E} `{Floating E} (data : DataFrame)
    (efficiency : E) (w : World) : result (list string) :=
  if empty data then Ok []
  else
    let recommendations := [] in
    dates <- getitem data "Date" ;;
    recent <- ge_instant dates (instant (Timestamp_now w) - 7 * NS_PER_DAY) ;;
    let weekly_workouts := List.length (filter (fun b : bool => b) recent) in
    let recommendations :=
      if (weekly_workouts <? 3)%nat
      then (recommendations ++ [ADVICE_FREQUENCY])%list else recommendations in
    calories <- getitem data "Calories Burned" ;;
    calories_mean <- Series_mean calories ;;
    durations <- getitem data "Duration (mins)" ;;
    durations_mean <- Series_mean durations ;;
    let recommendations :=
      if flt efficiency (fdiv calories_mean durations_mean)
      then (recommendations ++ [ADVICE_EFFICIENCY])%list else recommendations in
    Ok recommendations.

(** The four numbers [create_workout_stats] hands to [st.metric] (before
    they are formatted). *)
Record Stats (E : Type) := mkStats {
  total_workouts : nat;
  total_calories : Z;
  avg_duration : E;
  most_common_workout : value
}.
Arguments mkStats {E} _ _ _ _.
Arguments total_workouts {E} _.
Arguments total_calories {E} _.
Arguments avg_duration {E} _.
Arguments most_common_workout {E} _.

(** [None]: the frame is empty and nothing is shown. *)
Definition create_workout_stats {E} `{Floating E} (data : DataFrame)
  : result (option (Stats E)) :=
  if negb (empty data) then
    let total_workouts := len data in
    calories <- getitem data "Calories Burned" ;;
    total_calories <- Series_sum calories ;;
    durations <- getitem data "Duration (mins)" ;;
    avg_duration <- Series_mean durations ;;
    types <- getitem data "Workout Type" ;;
    most_common_workout <- iloc0 (Series_mode types) ;;
    Ok (Some (mkStats total_workouts total_calories avg_duration most_common_workout))
  else Ok None.

(** Lines 334-344 of [main]: the base prediction and its adjustments. *)
Definition predicted_calories {F} `{Number F} (model : LinearRegression F)
    (duration : Z) (gender : string) (heart_rate bmi : Z) : F :=
  let base_calories := predict model duration in
  let base_calories :=
    if String.eqb gender "Male" then mul base_calories (lit 1.2) else base_calories in
  let base_calories :=
    if 120 <? heart_rate then mul base_calories (lit 1.15) else base_calories in
  let base_calories :=
    if 25 <? bmi then mul base_calories (lit 0.9) else base_calories in
  base_calories.

(** The frame after line 70 of [analyze_fitness_data] has stored the
    ['Week'] column in it (a [UInt32] column in pandas, kept here as a
    column of numbers; nothing computes with it as a column). *)
Definition with_week (data : DataFrame) : result DataFrame :=
  dates <- getitem data "Date" ;;
  weeks <- dt_isocalendar_week dates ;;
  Ok (setitem data "Week" (Float64 (map (option_map inject_Z) weeks))).

(** The functions that fit a regression.  [fit xs ys] stands for the
    coefficients that [LinearRegression().fit(X, y)] computes from the
    feature values [xs] and the targets [ys]: scikit-learn centres the data
    and solves the least-squares problem in [float64] with LAPACK, and the
    digits it returns are not described here. *)
Section Regression.
Context {F : Type} (fit : list Q -> list Q -> LinearRegression F).

(** [LinearRegression().fit(X, y)] for a one-column [X]. *)
Definition LinearRegression_fit (X y : Series) : result (LinearRegression F) :=
  xs <- as_float_array X ;;
  ys <- as_float_array y ;;
  match xs with
  | [] => Raise ValueError
  | _ => Ok (fit xs ys)
  end.

(** Returns [(model, X)]; [None] stands for [(None, None)]. *)
Definition train_model (data : DataFrame)
  : result (option (LinearRegression F * Series)) :=
  if (len data <? 2)%nat then Ok None
  else
    X <- getitem data "Duration (mins)" ;;
    y <- getitem data "Calories Burned" ;;
    model <- LinearRegression_fit X y ;;
    Ok (Some (model, X)).

(** The "Predictions" page of [main]: [None] when [train_model] gives no
    model (the page then shows a warning). *)
Definition predictions_page `{Number F} (data : DataFrame) (duration : Z)
    (gender : string) (heart_rate bmi : Z) : result (option F) :=
  trained <- train_model data ;;
  match trained with
  | Some (model, _) =>
      Ok (Some (predicted_calories model duration gender heart_rate bmi))
  | None => Ok None
  end.

Context {E : Type} `{Floating E} `{Mean E}.

(** Returns [(model, X, avg_efficiency)]; [None] stands for
    [(None, None, None)]. *)
Definition analyze_fitness_data (data : DataFrame)
  : result (option (LinearRegression F * list Z * E)) :=
  if (len data <? 2)%nat then Ok None
  else
    weekly <- weekly_stats data ;;
    let X := map Duration_mins weekly in
    let y := map Calories_Burned weekly in
    model <- match X with
             | [] => Raise ValueError
             | _ => Ok (fit (map inject_Z X) (map inject_Z y))
             end ;;
    calories <- getitem data "Calories Burned" ;;
    durations <- getitem data "Duration (mins)" ;;
    efficiency <- div_series calories durations ;;
    Ok (Some (model, X, fmean efficiency)).

(** The computations of the "Dashboard" page (lines 196-210): the
    statistics, and under [if not data.empty:] the insights, that is the
    recommendations and the efficiency; [None] where the page shows
    nothing.  [get_personalized_recommendations] receives the frame that
    [analyze_fitness_data] has extended. *)
Definition dashboard (data : DataFrame) (w : World)
  : result (option (Stats E) * option (list string * E)) :=
  stats <- create_workout_stats data ;;
  insights <-
    (if negb (empty data) then
       analysed <- analyze_fitness_data data ;;
       match analysed with
       | Some (model, X, efficiency) =>
           data <- with_week data ;;
           recommendations <- get_personalized_recommendations data efficiency w ;;
           Ok (Some (recommendations, efficiency))
       | None => Ok None
       end
     else Ok None) ;;
  Ok (stats, insights).
End Regression.

(* ================================================================== *)
(** * Record sets

    The typed view of a table: one [WorkoutRecord] per logged session.  The
    body temperature is in tenths of a degree. *)

Record WorkoutRecord := mkRecord {
  entry_date : date;
  workoutType : string;
  durationMinutes : Z;
  caloriesBurned : Z;
  entry_age : Z;
  entry_gender : string;
  heartRateBpm : Z;
  bodyTemperature : Z
}.

Definition RecordSet := list WorkoutRecord.

Definition csv_row_of (r : WorkoutRecord) : list string :=
  csv_row (entry_date r) (workoutType r) (durationMinutes r) (caloriesBurned r)
    (entry_age r) (entry_gender r) (heartRateBpm r) (bodyTemperature r).

(** The cells of the record as pandas holds them. *)
Definition record_values (r : WorkoutRecord) : list value :=
  [Time (entry_date r); Str (workoutType r);
   Int (durationMinutes r); Int (caloriesBurned r);
   Int (entry_age r); Str (entry_gender r);
   Int (heartRateBpm r); Num (bodyTemperature r # 10)].

Definition int_column (f : WorkoutRecord -> Z) (rs : RecordSet) : Series :=
  Int64 (map f rs).

(** The frame that holds a record set. *)
Definition DataFrame_of (rs : RecordSet) : DataFrame :=
  [("Date", Datetime64 (map (fun r => Some (entry_date r)) rs));
   ("Workout Type", Object (map (fun r => Some (workoutType r)) rs));
   ("Duration (mins)", int_column durationMinutes rs);
   ("Calories Burned", int_column caloriesBurned rs);
   ("Age", int_column entry_age rs);
   ("Gender", Object (map (fun r => Some (entry_gender r)) rs));
   ("Heart Rate", int_column heartRateBpm rs);
   ("Body Temperature", Float64 (map (fun r => Some (bodyTemperature r # 10)) rs))].

(** A table with a header and one row per record. *)
Definition table_of (rs : RecordSet) : csv := HEADER :: map csv_row_of rs.

(* ================================================================== *)
(** * The pages of [main]

    Of the screen only the feedback widgets are kept ([st.error],
    [st.success], [st.info], [st.balloons]); titles, markup, metrics and
    charts are left out, and so are the emoji that open some texts. *)

(** Lines 220-231: the suggestions of the "Log Workout" form, a [dict] in
    insertion order. *)
Definition workout_suggestions : list (string * string) :=
  [("Morning Cardio", "6:00 AM - 7:00 AM");
   ("Strength Training", "8:00 AM - 9:30 AM");
   ("Yoga/Stretching", "7:00 AM - 8:00 AM");
   ("HIIT Workout", "5:00 PM - 5:45 PM");
   ("Evening Run/Jog", "6:00 PM - 7:00 PM");
   ("Swimming", "Any time");
   ("Cycling", "Early morning/Evening");
   ("CrossFit", "10:00 AM - 11:30 AM");
   ("Pilates", "9:00 AM - 10:00 AM");
   ("Weight Training", "4:00 PM - 5:30 PM")].

(** [d[key]] *)
Fixpoint dict_get (d : list (string * string)) (key : string) : result string :=
  match d with
  | [] => Raise (KeyError key)
  | (k, v) :: d' => if String.eqb k key then Ok v else dict_get d' key
  end.

(** What the widgets of the "Log Workout" form hold when the script runs;
    the body temperature in tenths of a degree. *)
Record LogForm := mkLogForm {
  form_workout_type : string;
  form_age : Z;
  form_heart_rate : Z;
  form_duration : Z;
  form_gender : string;
  form_body_temp : Z;
  form_calories : Z;
  form_submitted : bool
}.

(** What the widgets can hold: a [selectbox] one of its options, a [slider]
    a value between its bounds (lines 232-241). *)
Definition widgets_allow (f : LogForm) : bool :=
  existsb (String.eqb (form_workout_type f)) (map fst workout_suggestions)
  && (15 <=? form_age f) && (form_age f <=? 80)
  && (60 <=? form_heart_rate f) && (form_heart_rate f <=? 200)
  && (1 <=? form_duration f) && (form_duration f <=? 180)
  && existsb (String.eqb (form_gender f)) ["Male"; "Female"]
  && (350 <=? form_body_temp f) && (form_body_temp f <=? 400)
  && (1 <=? form_calories f) && (form_calories f <=? 1000).

(** The "Log Workout" page (lines 214-263). *)
Definition log_workout_page (f : LogForm) (w : World) : result World :=
  slot <- dict_get workout_suggestions (form_workout_type f) ;;
  let w := show w (st_info ("Suggested time: " ++ slot)) in
  if form_submitted f then
    Ok (submit_workout (form_workout_type f) (form_duration f) (form_calories f)
          (form_age f) (form_gender f) (form_heart_rate f) (form_body_temp f) w)
  else Ok w.

(** One run of the script with "Log Workout" chosen (lines 139, 214 and
    364-366): [initialize_file()], then [main()], which loads the data
    before it shows the page. *)
Definition run_log_workout (f : LogForm) (w : World) : result World :=
  let w := initialize_file w in
  data <- load_data w ;;
  log_workout_page f w.

(** The day number of the Sunday that closes the week of [d] (Monday to
    Sunday). *)
Definition week_ending (d : date) : Z :=
  toordinal d + (6 - (toordinal d + 6) mod 7).

(** One row of [weekly_data]; [week_end] is the day number of the Sunday
    that labels the bin. *)
Record ProgressRow := mkProgressRow {
  week_end : Z;
  progress_calories : Z;
  progress_duration : Z
}.

Definition Zmin_list (x : Z) (l : list Z) : Z := fold_right Z.min x l.
Definition Zmax_list (x : Z) (l : list Z) : Z := fold_right Z.max x l.

(** Lines 304-307 of the "Workout History" page:
    [data.groupby(pd.Grouper(key='Date', freq='W')).agg({...: 'sum',
    ...: 'sum'}).reset_index()].  The bins are the weeks ending on a Sunday,
    from the week of the earliest date to the week of the latest one, each of
    them present; the sums are [int64] sums, and a week without rows sums
    to 0. *)
Definition weekly_progress (data : DataFrame) : result (list ProgressRow) :=
  dates <- getitem data "Date" ;;
  ends <- match dates with
          | Datetime64 ds => Ok (map (option_map week_ending) ds)
          | _ => Raise TypeError
          end ;;
  calories <- getitem data "Calories Burned" ;;
  calories <- int64_values calories ;;
  durations <- getitem data "Duration (mins)" ;;
  durations <- int64_values durations ;;
  match dropna ends with
  | [] => Ok []
  | e :: es =>
      let first := Zmin_list e es in
      let last := Zmax_list e es in
      Ok (map (fun i =>
                 let b := first + 7 * Z.of_nat i in
                 mkProgressRow b
                   (wrap_int64 (Zsum (select b ends calories)))
                   (wrap_int64 (Zsum (select b ends durations))))
            (seq 0 (S (Z.to_nat ((last - first) / 7)))))
  end.

(* ================================================================== *)
(** * Notions used in the statements *)

(** The adjustments of the prediction, as a list of (condition, factor)
    pairs applied from left to right. *)
Definition apply_adjustments {F} `{Number F} (base : F) (adj : list (bool * Q)) : F :=
  fold_left (fun (acc : F) (a : bool * Q) =>
               if fst a then mul acc (lit (snd a)) else acc) adj base.

(** The invariants of a workout record that concern [log_workout]'s
    arguments. *)
Definition record_invariant (workout_type : string) (duration calories : Z) : bool :=
  truthy (strip workout_type) && (0 <? duration) && (0 <? calories).

(** The sum of an integer field over a record set, and the sum of its
    absolute values. *)
Definition total (f : WorkoutRecord -> Z) (rs : RecordSet) : Z :=
  Zsum (map f rs).

Definition abs_total (f : WorkoutRecord -> Z) (rs : RecordSet) : Z :=
  Zsum (map (fun r => Z.abs (f r)) rs).

(** The quotient calories/duration of a record, as [div_series] computes
    it. *)
Definition quotient {E} `{Floating E} (r : WorkoutRecord) : E :=
  fdiv (of_int64 (caloriesBurned r)) (of_int64 (durationMinutes r)).

(** The numbers of a record that [read_csv] gives back as they were
    logged: integers of [int64], a body temperature in [tenths_range]. *)
Definition numbers_load (r : WorkoutRecord) : bool :=
  fits_int64 (durationMinutes r) && fits_int64 (caloriesBurned r)
  && fits_int64 (entry_age r) && fits_int64 (heartRateBpm r)
  && tenths_range (bodyTemperature r).

(** Records whose row [load_data] reads back as it was logged: a date of
    [in_Timestamp_range], text fields that stay text, numbers that stay the
    same numbers. *)
Definition loadable (r : WorkoutRecord) : bool :=
  valid_date (entry_date r) && (1000 <=? year (entry_date r))
  && in_Timestamp_range (entry_date r)
  && reads_as_text (workoutType r) && reads_as_text (entry_gender r)
  && numbers_load r.

(** The first record type, in the order of the set, among the most frequent
    ones. *)
Definition first_encountered_mode (types : list string) : option string :=
  find (fun x => (count String.eqb x types =? max_count String.eqb types)%nat) types.

(** An ISO calendar week: ISO year and week number. *)
Definition iso_calendar_week (d : date) : Z * Z := (iso_year d, iso_week d).

Definition week_of (r : WorkoutRecord) : Z := iso_week (entry_date r).

Definition in_week (k : Z) (r : WorkoutRecord) : bool := week_of r =? k.

(** The aggregate of the records of week number [k]. *)
Definition bucket (rs : RecordSet) (k : Z) : WeekRow :=
  let own := filter (in_week k) rs in
  mkWeekRow k (total caloriesBurned own) (total durationMinutes own) (List.length own).

(** The four digits of a year between 1000 and 9999. *)
Definition pad4 (y : Z) : string :=
  String (digit_char (y / 1000))
    (String (digit_char (y / 100 mod 10))
       (String (digit_char (y / 10 mod 10))
          (String (digit_char (y mod 10)) EmptyString))).

Definition four_digit_years : list Z :=
  flat_map (fun a => map (fun b => 100 * Z.of_nat a + Z.of_nat b) (seq 0 100))
    (seq 10 90).

(** A clock that shows a calendar day a [pd.Timestamp] can hold. *)
Definition clock_sane (t : Timestamp) : bool :=
  valid_date (ts_date t) && (1000 <=? year (ts_date t))
  && in_Timestamp_range (ts_date t).

Definition set_clock (t : Timestamp) (w : World) : World :=
  mkWorld t (disk w) (screen w).

(** The worlds a session of the program reaches: runs of the script with
    the "Log Workout" page, between which time passes.  (The other pages
    write nothing to the file.) *)
Inductive session (w0 : World) : World -> Prop :=
| session_start : session w0 w0
| session_run (f : LogForm) (w1 w2 : World) :
    session w0 w1 -> widgets_allow f = true ->
    run_log_workout f w1 = Ok w2 -> session w0 w2
| session_time (t : Timestamp) (w1 : World) :
    session w0 w1 -> clock_sane t = true -> session w0 (set_clock t w1).

(** The record a form holds, dated [d]. *)
Definition record_of_form (d : date) (f : LogForm) : WorkoutRecord :=
  mkRecord d (form_workout_type f) (form_duration f) (form_calories f)
    (form_age f) (form_gender f) (form_heart_rate f) (form_body_temp f).

Definition valid_record (r : WorkoutRecord) : bool :=
  record_invariant (workoutType r) (durationMinutes r) (caloriesBurned r).

(** What holds of every world of a session that starts without the file. *)
Definition session_invariant (w : World) : Prop :=
  clock_sane (clock w) = true
  /\ (disk w = None
      \/ exists rs, disk w = Some (table_of rs)
                    /\ forallb loadable rs = true
                    /\ forallb valid_record rs = true).

(** The records whose week ends on day number [b]. *)
Definition in_week_ending (b : Z) (r : WorkoutRecord) : bool :=
  week_ending (entry_date r) =? b.

(** The aggregate of the records whose week ends on day number [b]. *)
Definition progress_bucket (rs : RecordSet) (b : Z) : ProgressRow :=
  let own := filter (in_week_ending b) rs in
  mkProgressRow b (total caloriesBurned own) (total durationMinutes own).

(** A record whose workout type is one of the missing-value markers of
    [read_csv], and whose other fields load as they were logged. *)
Definition logged_with_missing_type (r : WorkoutRecord) : bool :=
  valid_date (entry_date r) && (1000 <=? year (entry_date r))
  && in_Timestamp_range (entry_date r) && is_na (workoutType r)
  && reads_as_text (entry_gender r) && numbers_load r.

(** The records dated no earlier than seven days before the instant [now]. *)
Definition recent (now : Timestamp) (rs : RecordSet) : RecordSet :=
  filter (fun r => instant now - 7 * NS_PER_DAY <=? instant (midnight (entry_date r))) rs.


(** A filled form, for examples. *)
Definition sample_form : LogForm :=
  mkLogForm "Swimming" 30 110 45 "Female" 368 300 true.

Definition world_of (r : result World) (default : World) : World :=
  match r with Ok w => w | Raise _ => default end.

(** A stand-in for the library's fit, for examples. *)
Definition sample_fit (xs ys : list Q) : LinearRegression Q := mkLR 0%Q 0%Q.

(** Sample data. *)
Definition sample_clock : Timestamp := mkts (mkdate 2026 11 3) 36000000000000.

Definition sample_world : World := mkWorld sample_clock (Some [HEADER]) [].

Definition yoga (d : date) : WorkoutRecord :=
  mkRecord d "Yoga" 30 150 28 "Female" 110 368.

Definition cycling (d : date) : WorkoutRecord :=
  mkRecord d "Cycling" 45 400 28 "Female" 130 371.

Definition three_sessions : RecordSet :=
  [yoga (mkdate 2026 11 1); yoga (mkdate 2026 11 2); yoga (mkdate 2026 11 3)].

(* ================================================================== *)
(** * Properties of the string functions *)

(** Linear arithmetic with division and remainder by constants. *)
Ltac div_lia := Z.to_euclidean_division_equations; lia.

Lemma lstrip_spaces (s : string) :
  all_chars isspace s = true -> lstrip s = "".
Proof.
  induction s as [|c s IH]; simpl; [reflexivity|].
  intros H. apply andb_prop in H as [Hc Hs]. rewrite Hc. auto.
Qed.

Lemma rstrip_spaces (s : string) :
  all_chars isspace s = true -> rstrip s = "".
Proof.
  induction s as [|c s IH]; simpl; [reflexivity|].
  intros H. apply andb_prop in H as [Hc Hs].
  rewrite (IH Hs), Hc. reflexivity.
Qed.

Lemma rstrip_empty (s : string) :
  rstrip s = "" -> all_chars isspace s = true.
Proof.
  induction s as [|c s IH]; simpl; [reflexivity|].
  destruct (rstrip s) eqn:E; [|discriminate].
  destruct (isspace c); [|discriminate].
  intros _. simpl. auto.
Qed.

Lemma lstrip_all_chars (s : string) :
  all_chars isspace (lstrip s) = all_chars isspace s.
Proof.
  induction s as [|c s IH]; simpl; [reflexivity|].
  destruct (isspace c) eqn:E; simpl; [assumption|].
  rewrite E. reflexivity.
Qed.

(** [s.strip()] is empty exactly when [s] holds nothing but whitespace. *)
Lemma strip_empty_iff (s : string) :
  strip s = "" <-> all_chars isspace s = true.
Proof.
  unfold strip. split; intros H.
  - rewrite <- lstrip_all_chars. now apply rstrip_empty.
  - apply rstrip_spaces. now rewrite lstrip_all_chars.
Qed.

Lemma truthy_false (s : string) : truthy s = false <-> s = "".
Proof. destruct s; simpl; split; congruence. Qed.

(* ================================================================== *)
(** * The record store: validation *)

Section LogWorkout.
Variables (workout_type gender : string).
Variables (duration calories age heart_rate body_temp : Z).
Variable w : World.

Let logged := log_workout workout_type duration calories age gender
                heart_rate body_temp w.

Lemma log_workout_rejected :
  strip workout_type = "" ->
  logged = (false, show w (st_error "Please enter a workout type")).
Proof.
  intros H. unfold logged, log_workout. rewrite H. reflexivity.
Qed.

Lemma log_workout_accepted :
  strip workout_type <> "" ->
  logged = (true, append_row w (csv_row (date_today w) workout_type duration
                                  calories age gender heart_rate body_temp)).
Proof.
  intros H. unfold logged, log_workout.
  destruct (strip workout_type); [congruence | reflexivity].
Qed.

Lemma log_workout_true_iff : fst logged = true <-> strip workout_type <> "".
Proof.
  unfold logged, log_workout.
  destruct (strip workout_type); simpl; split; congruence.
Qed.
End LogWorkout.

Lemma initialize_file_creates (w : World) :
  disk w = None -> disk (initialize_file w) = Some (table_of []).
Proof. intros H. unfold initialize_file. now rewrite H. Qed.

Lemma initialize_file_keeps (w : World) (f : csv) :
  disk w = Some f -> initialize_file w = w.
Proof. intros H. unfold initialize_file. now rewrite H. Qed.

(** [initialize_file] never truncates, and running it twice changes
    nothing more. *)
Lemma initialize_file_idempotent (w : World) :
  initialize_file (initialize_file w) = initialize_file w.
Proof.
  destruct (disk w) as [f|] eqn:E.
  - now rewrite !(initialize_file_keeps w f E).
  - apply (initialize_file_keeps _ (table_of [])).
    now apply initialize_file_creates.
Qed.

(** C3: a workout type that is empty or holds only whitespace makes
    [log_workout] fail (it returns [False] after showing the validation
    error) and leaves the persisted table untouched: no row is written. *)
Theorem log_workout_blank_type_is_noop
    (workout_type gender : string) (duration calories age heart_rate body_temp : Z)
    (w : World) :
  all_chars isspace workout_type = true ->
  let r := log_workout workout_type duration calories age gender
             heart_rate body_temp w in
  fst r = false
  /\ disk (snd r) = disk w
  /\ screen (snd r) = (screen w ++ [st_error "Please enter a workout type"])%list.
Proof.
  intros H. apply strip_empty_iff in H.
  rewrite log_workout_rejected by assumption.
  repeat split.
Qed.

Lemma log_workout_blank_type_is_noop_witness :
  all_chars isspace "   " = true
  /\ (let r := log_workout "   " 30 150 28 "Female" 110 368 sample_world in
      fst r = false
      /\ disk (snd r) = disk sample_world
      /\ screen (snd r)
         = (screen sample_world ++ [st_error "Please enter a workout type"])%list).
Proof.
  split; [reflexivity|].
  apply (log_workout_blank_type_is_noop "   " "Female" 30 150 28 110 368 sample_world).
  reflexivity.
Defined.



(* ================================================================== *)
(** * The record store: loading without a file *)

(** C5: when [fitness_tracker.csv] does not exist, [load_data] raises
    nothing and returns a frame without rows; but the frame carries the four
    columns listed in the [except] branch, not the eight columns that
    [initialize_file] writes and that a load from the initialised file
    returns. *)
Theorem load_data_missing_file (now : Timestamp) (shown : list widget) :
  let w := mkWorld now None shown in
  let fallback := ["Date"; "Workout Type"; "Duration (mins)"; "Calories Burned"] in
  load_data w = Ok (DataFrame_columns fallback)
  /\ len (DataFrame_columns fallback) = O
  /\ column_names (DataFrame_columns fallback) = fallback
  /\ List.length fallback = 4%nat
  /\ List.length HEADER = 8%nat
  /\ (exists df,
        load_data (initialize_file w) = Ok df
        /\ len df = O /\ column_names df = HEADER).
Proof.
  repeat split. eexists. repeat split.
Qed.

(* ================================================================== *)
(** * The prediction page *)

Lemma float_literals :
  (lit 1.2%Q : float) = 1.2%float
  /\ (lit 1.15%Q : float) = 1.15%float
  /\ (lit 0.9%Q : float) = 0.9%float.
Proof. repeat split; vm_compute; reflexivity. Qed.

(** C1: the prediction is [model.predict(duration)] multiplied by 1.2 when
    the gender is Male, then by 1.15 when the heart rate exceeds 120, then
    by 0.9 when the BMI exceeds 25, in this order, and nothing else happens
    to it; for Male, 130 and 30 it is [((base * 1.2) * 1.15) * 0.9].  This
    holds in every arithmetic, in particular in binary64. *)
Theorem predicted_calories_adjustments {F} `{Number F}
    (model : LinearRegression F) (duration : Z) (gender : string)
    (heart_rate bmi : Z) :
  predicted_calories model duration gender heart_rate bmi
  = apply_adjustments (predict model duration)
      [(String.eqb gender "Male", 1.2%Q); (120 <? heart_rate, 1.15%Q);
       (25 <? bmi, 0.9%Q)]
  /\ predicted_calories model duration "Male" 130 30
     = mul (mul (mul (predict model duration) (lit 1.2)) (lit 1.15)) (lit 0.9).
Proof.
  split; reflexivity.
Qed.

(** In binary64 the three factors are the doubles nearest to 1.2, 1.15 and
    0.9, multiplied from left to right. *)
Corollary predicted_calories_binary64 (model : LinearRegression float) (duration : Z) :
  predicted_calories model duration "Male" 130 30
  = (predict model duration * 1.2 * 1.15 * 0.9)%float.
Proof. reflexivity. Qed.

(** The order of the multiplications is observable in binary64. *)
Example binary64_order_matters :
  predicted_calories (mkLR 0%float 100%float) 15 "Male" 130 30 = 124.2%float
  /\ (100 * (1.2 * (1.15 * 0.9)))%float = 124.19999999999997%float.
Proof. split; vm_compute; reflexivity. Qed.

(** Without a condition met the base prediction comes back as it is, also
    when it is negative. *)
Example no_clamping :
  predicted_calories (mkLR (1#1)%Q (-50#1)%Q) 10 "Female" 80 20 = (10 * 1 + -50)%Q.
Proof. reflexivity. Qed.

(* ================================================================== *)
(** * Recommendations and the clock *)

(** C9, as the claim states it, fails: the function has no parameter for
    the current time and reads the system clock; two runs on the same
    frame with the same arguments differ when the clock does. *)
Lemma recommendations_depend_on_clock :
  let data := DataFrame_of three_sessions in
  let w1 := mkWorld (mkts (mkdate 2026 11 3) 36000000000000) (Some [HEADER]) [] in
  let w2 := mkWorld (mkts (mkdate 2026 12 3) 36000000000000) (Some [HEADER]) [] in
  get_personalized_recommendations data (Finite 100) w1 = Ok []
  /\ get_personalized_recommendations data (Finite 100) w2 = Ok [ADVICE_FREQUENCY].
Proof. split; vm_compute; reflexivity. Qed.

(** C9 (amended): the recent-workout count is taken relative to the system
    clock, read inside the function; two runs on the same frame and the same
    efficiency return identical results whenever the clock shows the same
    instant, whatever else differs in the world. *)
Theorem recommendations_same_clock {E} `{Floating E}
    (data : DataFrame) (efficiency : E) (w1 w2 : World) :
  instant (clock w1) = instant (clock w2) ->
  get_personalized_recommendations data efficiency w1
  = get_personalized_recommendations data efficiency w2.
Proof.
  intros Hnow. unfold get_personalized_recommendations, Timestamp_now.
  rewrite Hnow. reflexivity.
Qed.

Lemma recommendations_same_clock_witness :
  let w1 := mkWorld sample_clock (Some [HEADER]) [] in
  let w2 := mkWorld sample_clock None [st_balloons] in
  instant (clock w1) = instant (clock w2)
  /\ get_personalized_recommendations (DataFrame_of three_sessions) (Finite 100) w1
     = get_personalized_recommendations (DataFrame_of three_sessions) (Finite 100) w2.
Proof.
  split; [reflexivity|].
  apply (recommendations_same_clock (DataFrame_of three_sessions) (Finite 100)
           (mkWorld sample_clock (Some [HEADER]) [])
           (mkWorld sample_clock None [st_balloons])).
  reflexivity.
Defined.

(* ================================================================== *)
(** * Frames of record sets *)

Lemma dropna_map_Some {A B} (g : A -> B) (l : list A) :
  dropna (map (fun a => Some (g a)) l) = map g l.
Proof. induction l; simpl; congruence. Qed.

Lemma len_DataFrame_of (rs : RecordSet) : len (DataFrame_of rs) = List.length rs.
Proof.
  unfold len, DataFrame_of, series_len, values.
  now rewrite !length_map.
Qed.

Lemma empty_DataFrame_of (rs : RecordSet) :
  empty (DataFrame_of rs) = true <-> rs = [].
Proof.
  unfold empty. rewrite len_DataFrame_of, Nat.eqb_eq.
  destruct rs; simpl; split; congruence.
Qed.

Lemma Series_sum_int_column (f : WorkoutRecord -> Z) (rs : RecordSet) :
  Series_sum (int_column f rs) = Ok (wrap_int64 (total f rs)).
Proof. reflexivity. Qed.

Lemma Series_mean_int_column {E} `{Floating E}
    (f : WorkoutRecord -> Z) (rs : RecordSet) :
  Series_mean (int_column f rs)
  = Ok (fdiv (of_int64 (total f rs)) (of_int64 (Z.of_nat (List.length rs)))).
Proof.
  unfold Series_mean, int_column, total. cbn [int64_values bind].
  now rewrite length_map.
Qed.

(* ------------------------------------------------------------------ *)
(** ** Sums that [int64] holds *)

Lemma wrap_int64_id (z : Z) : int64_min <= z <= int64_max -> wrap_int64 z = z.
Proof.
  unfold wrap_int64, int64_min, int64_max. intros H.
  rewrite Z.mod_small; lia.
Qed.

Lemma abs_total_bound (f : WorkoutRecord -> Z) (rs : RecordSet) :
  Z.abs (total f rs) <= abs_total f rs.
Proof.
  unfold total, abs_total. induction rs as [|r rs IH]; simpl; lia.
Qed.

Lemma abs_total_filter (f : WorkoutRecord -> Z) (p : WorkoutRecord -> bool)
    (rs : RecordSet) :
  abs_total f (filter p rs) <= abs_total f rs.
Proof.
  unfold abs_total. induction rs as [|r rs IH]; simpl; [lia|].
  destruct (p r); simpl; lia.
Qed.

(** A sum of values whose absolute values add up to at most [int64_max]
    does not wrap, and neither does the sum of a part of them. *)
Lemma wrap_total (f : WorkoutRecord -> Z) (rs : RecordSet) :
  abs_total f rs <= int64_max -> wrap_int64 (total f rs) = total f rs.
Proof.
  intros H. pose proof (abs_total_bound f rs).
  apply wrap_int64_id. unfold int64_min, int64_max in *. lia.
Qed.

Lemma wrap_total_filter (f : WorkoutRecord -> Z) (p : WorkoutRecord -> bool)
    (rs : RecordSet) :
  abs_total f rs <= int64_max ->
  wrap_int64 (total f (filter p rs)) = total f (filter p rs).
Proof.
  intros H. apply wrap_total.
  pose proof (abs_total_filter f p rs). lia.
Qed.

(* ================================================================== *)
(** * The efficiency advice *)

Lemma length_filter_map {A} (f : A -> bool) (l : list A) :
  List.length (filter (fun b : bool => b) (map f l)) = List.length (filter f l).
Proof.
  induction l as [|a l IH]; simpl; [reflexivity|].
  destruct (f a); simpl; now rewrite IH.
Qed.

(** The advice for the frame of a record set, in full and in every
    arithmetic: the efficiency is compared with the quotient of the two
    means, each the quotient of a total by the number of records. *)
Lemma recommendations_DataFrame_of {E} `{Floating E}
    (rs : RecordSet) (efficiency : E) (w : World) :
  rs <> [] ->
  let n := of_int64 (Z.of_nat (List.length rs)) in
  get_personalized_recommendations (DataFrame_of rs) efficiency w
  = Ok ((if (List.length (recent (clock w) rs) <? 3)%nat
         then [ADVICE_FREQUENCY] else [])
        ++ (if flt efficiency
                 (fdiv (fdiv (of_int64 (total caloriesBurned rs)) n)
                       (fdiv (of_int64 (total durationMinutes rs)) n))
            then [ADVICE_EFFICIENCY] else []))%list.
Proof.
  intros Hrs n. unfold get_personalized_recommendations.
  destruct (empty (DataFrame_of rs)) eqn:Ee.
  { apply empty_DataFrame_of in Ee. congruence. }
  change (getitem (DataFrame_of rs) "Date")
    with (Ok (Datetime64 (map (fun r => Some (entry_date r)) rs))).
  change (getitem (DataFrame_of rs) "Calories Burned")
    with (Ok (int_column caloriesBurned rs)).
  change (getitem (DataFrame_of rs) "Duration (mins)")
    with (Ok (int_column durationMinutes rs)).
  cbn [bind ge_instant].
  rewrite !Series_mean_int_column. cbn [bind].
  rewrite map_map, length_filter_map. unfold Timestamp_now, recent. fold n.
  destruct (_ <? 3)%nat; destruct (flt efficiency _); reflexivity.
Qed.

Lemma advice_texts_differ : ADVICE_FREQUENCY <> ADVICE_EFFICIENCY.
Proof. discriminate. Qed.

(** C8, as the claim states it, fails.  The code compares the efficiency
    with [mean(calories) / mean(durations)], computed in binary64 with
    three roundings.  For the calories 100, 200, 220 and the durations 30,
    30, 44 the totals are 520 and 104: the aggregate ratio is 5, also when
    it is computed in binary64, and an efficiency of 5.0 is not below it;
    but the quotient of the two means is 5.000000000000001, and the advice
    is given. *)
Lemma efficiency_advice_at_the_aggregate_ratio :
  let rs := [mkRecord (mkdate 2026 11 1) "Yoga" 30 100 28 "Female" 110 368;
             mkRecord (mkdate 2026 11 2) "Yoga" 30 200 28 "Female" 110 368;
             mkRecord (mkdate 2026 11 3) "Yoga" 44 220 28 "Female" 110 368] in
  total caloriesBurned rs = 5 * total durationMinutes rs
  /\ PrimFloat.div (float_of_Z (total caloriesBurned rs))
                   (float_of_Z (total durationMinutes rs)) = 5%float
  /\ PrimFloat.ltb 5 5 = false
  /\ get_personalized_recommendations (DataFrame_of rs) 5%float sample_world
     = Ok [ADVICE_EFFICIENCY].
Proof. repeat split; vm_compute; reflexivity. Qed.

(** C8 (amended): on a non-empty record set the "improve efficiency" advice
    is given exactly when the efficiency is strictly below the quotient of
    the mean of the calories by the mean of the durations, in binary64:
    each mean is the rounded quotient of a total by the number of records,
    and their quotient is rounded again.  The totals are those of the
    columns while the absolute values add up to at most [2^53].  On an
    empty frame no advice is given at all. *)
Theorem efficiency_advice_iff_below_quotient_of_means
    (rs : RecordSet) (efficiency : float) (w : World) :
  (rs <> [] ->
   abs_total caloriesBurned rs <= 2 ^ 53 ->
   abs_total durationMinutes rs <= 2 ^ 53 ->
   exists advice,
     get_personalized_recommendations (DataFrame_of rs) efficiency w = Ok advice
     /\ (In ADVICE_EFFICIENCY advice
         <-> PrimFloat.ltb efficiency
               (PrimFloat.div
                  (PrimFloat.div (float_of_Z (total caloriesBurned rs))
                                 (float_of_Z (Z.of_nat (List.length rs))))
                  (PrimFloat.div (float_of_Z (total durationMinutes rs))
                                 (float_of_Z (Z.of_nat (List.length rs)))))
             = true))
  /\ (forall data, empty data = true ->
        get_personalized_recommendations data efficiency w = Ok []).
Proof.
  split.
  - intros Hrs _ _. rewrite recommendations_DataFrame_of by assumption.
    cbv zeta. cbn [flt fdiv of_int64 binary64].
    eexists. split; [reflexivity|].
    destruct (PrimFloat.ltb efficiency _); destruct (_ <? 3)%nat; simpl;
      split; intros H';
      try reflexivity; try discriminate; intuition (try discriminate).
  - intros data He. unfold get_personalized_recommendations. now rewrite He.
Qed.

Lemma efficiency_advice_iff_below_quotient_of_means_witness :
  three_sessions <> []
  /\ abs_total caloriesBurned three_sessions <= 2 ^ 53
  /\ abs_total durationMinutes three_sessions <= 2 ^ 53
  /\ empty (DataFrame_of []) = true
  /\ (exists advice,
        get_personalized_recommendations (DataFrame_of three_sessions) 4%float
          sample_world = Ok advice
        /\ (In ADVICE_EFFICIENCY advice
            <-> PrimFloat.ltb 4
                  (PrimFloat.div
                     (PrimFloat.div (float_of_Z (total caloriesBurned three_sessions))
                                    (float_of_Z (Z.of_nat (List.length three_sessions))))
                     (PrimFloat.div (float_of_Z (total durationMinutes three_sessions))
                                    (float_of_Z (Z.of_nat (List.length three_sessions)))))
                = true))
  /\ get_personalized_recommendations (DataFrame_of []) 4%float sample_world = Ok [].
Proof.
  destruct (efficiency_advice_iff_below_quotient_of_means
              three_sessions 4%float sample_world) as [H1 H2].
  assert (Hc : abs_total caloriesBurned three_sessions <= 2 ^ 53)
    by (vm_compute; discriminate).
  assert (Hd : abs_total durationMinutes three_sessions <= 2 ^ 53)
    by (vm_compute; discriminate).
  split; [discriminate|]. split; [exact Hc|]. split; [exact Hd|].
  split; [reflexivity|]. split.
  - apply H1; [discriminate | exact Hc | exact Hd].
  - apply H2. reflexivity.
Defined.

(** The frequency advice is given when fewer than three records are dated
    no earlier than seven days before the instant the clock shows; records
    dated after that instant count as well. *)
Lemma frequency_advice_iff_few_recent {E} `{Floating E}
    (rs : RecordSet) (efficiency : E) (w : World) :
  rs <> [] ->
  exists advice,
    get_personalized_recommendations (DataFrame_of rs) efficiency w = Ok advice
    /\ (In ADVICE_FREQUENCY advice
        <-> (List.length
               (filter (fun r => (instant (clock w) - 7 * NS_PER_DAY
                                  <=? instant (midnight (entry_date r)))%Z) rs)
             < 3)%nat).
Proof.
  intros Hrs. rewrite recommendations_DataFrame_of by assumption. cbv zeta.
  eexists. split; [reflexivity|].
  rewrite <- Nat.ltb_lt. unfold recent.
  destruct (flt efficiency _); destruct (_ <? 3)%nat; simpl; split; intros H';
    try reflexivity; try discriminate; intuition (try discriminate).
Qed.

(* ================================================================== *)
(** * Counting, distinct elements and sorting *)

Section ModeFacts.
Context {A : Type} (eqb leb : A -> A -> bool).
Hypothesis eqb_eq : forall x y, eqb x y = true <-> x = y.
Hypothesis leb_total : forall x y, leb x y = true \/ leb y x = true.
Hypothesis leb_trans :
  forall x y z, leb x y = true -> leb y z = true -> leb x z = true.

Lemma In_unique (x : A) (l : list A) : In x (unique eqb l) <-> In x l.
Proof.
  induction l as [|a l IH]; simpl; [tauto|].
  rewrite filter_In, IH. split.
  - intros [E | [H _]]; auto.
  - intros [E | H]; [now left|].
    destruct (eqb a x) eqn:Eax.
    + left. now apply eqb_eq.
    + right. auto.
Qed.

Lemma NoDup_unique (l : list A) : NoDup (unique eqb l).
Proof.
  induction l as [|a l IH]; simpl; constructor.
  - rewrite filter_In. intros [_ H].
    assert (E : eqb a a = true) by now apply eqb_eq.
    rewrite E in H. discriminate.
  - now apply NoDup_filter.
Qed.

Lemma le_fold_max {B} (f : B -> nat) (x : B) (l : list B) :
  In x l -> (f x <= fold_right Nat.max O (map f l))%nat.
Proof.
  induction l as [|a l IH]; simpl; [tauto|].
  intros [<- | H]; [lia|]. specialize (IH H). lia.
Qed.

Lemma fold_max_attained {B} (f : B -> nat) (l : list B) :
  l <> [] -> exists x, In x l /\ f x = fold_right Nat.max O (map f l).
Proof.
  induction l as [|a l IH]; [congruence|]. intros _. simpl.
  destruct l as [|b l].
  - exists a. simpl. split; [auto | lia].
  - destruct IH as [x [Hx Ex]]; [discriminate|].
    destruct (Nat.max_spec (f a) (fold_right Nat.max O (map f (b :: l))))
      as [[_ E] | [_ E]]; rewrite E.
    + exists x. split; [now right | assumption].
    + exists a. split; [now left | reflexivity].
Qed.

Lemma count_le_max_count (x : A) (l : list A) :
  In x l -> (count eqb x l <= max_count eqb l)%nat.
Proof. apply (le_fold_max (fun y => count eqb y l)). Qed.

Lemma most_frequent_spec (x : A) (l : list A) :
  In x (most_frequent eqb l) <-> In x l /\ count eqb x l = max_count eqb l.
Proof.
  unfold most_frequent. now rewrite filter_In, In_unique, Nat.eqb_eq.
Qed.

Lemma most_frequent_nonempty (l : list A) : l <> [] -> most_frequent eqb l <> [].
Proof.
  intros Hl.
  destruct (fold_max_attained (fun y => count eqb y l) l Hl) as [x [Hx Ex]].
  assert (H : In x (most_frequent eqb l)) by now apply most_frequent_spec.
  intros E. now rewrite E in H.
Qed.

Lemma In_insert (x y : A) (l : list A) : In y (insert leb x l) <-> y = x \/ In y l.
Proof.
  induction l as [|a l IH]; simpl; [intuition|].
  destruct (leb x a); simpl; [intuition|].
  rewrite IH. intuition.
Qed.

Lemma In_sort (y : A) (l : list A) : In y (sort leb l) <-> In y l.
Proof.
  induction l as [|a l IH]; simpl; [tauto|].
  rewrite In_insert, IH. intuition.
Qed.

Let le (x y : A) : Prop := leb x y = true.

Lemma insert_sorted (x : A) (l : list A) :
  StronglySorted le l -> StronglySorted le (insert leb x l).
Proof.
  induction 1 as [|a l Hl IH Ha]; simpl.
  - constructor; constructor.
  - destruct (leb x a) eqn:Exa.
    + apply SSorted_cons.
      * now apply SSorted_cons.
      * apply Forall_cons; [exact Exa|].
        rewrite Forall_forall in *. intros y Hy.
        apply (leb_trans x a y Exa). now apply Ha.
    + apply SSorted_cons; [assumption|].
      rewrite Forall_forall in *. intros y Hy.
      apply In_insert in Hy as [-> | Hy]; [|now apply Ha].
      destruct (leb_total x a) as [H|H]; [congruence | exact H].
Qed.

Lemma sort_sorted (l : list A) : StronglySorted le (sort leb l).
Proof.
  induction l; simpl; [constructor | now apply insert_sorted].
Qed.

(** The first element of the sorted list is below all elements. *)
Lemma sort_head_least (l : list A) (h : A) (t : list A) :
  sort leb l = h :: t -> forall y, In y l -> leb h y = true.
Proof.
  intros E y Hy. pose proof (sort_sorted l) as S. rewrite E in S.
  apply (In_sort y) in Hy. rewrite E in Hy.
  inversion S as [|? ? _ Hall]; subst.
  destruct Hy as [<- | Hy].
  - destruct (leb_total h h); assumption.
  - rewrite Forall_forall in Hall. now apply Hall.
Qed.

(** What [s.mode().iloc[0]] is on a column without missing values: a most
    frequent value, the least one in the order. *)
Lemma modes_head (l : list A) :
  l <> [] ->
  exists m t,
    modes eqb leb l = m :: t
    /\ In m l
    /\ (forall x, In x l -> (count eqb x l <= count eqb m l)%nat)
    /\ (forall x, In x l -> count eqb x l = count eqb m l -> leb m x = true).
Proof.
  intros Hl. unfold modes.
  destruct (sort leb (most_frequent eqb l)) as [|m t] eqn:E.
  - exfalso. apply (most_frequent_nonempty l Hl).
    destruct (most_frequent eqb l) as [|a l0]; [reflexivity|].
    assert (H : In a (sort leb (a :: l0))) by (apply In_sort; now left).
    now rewrite E in H.
  - assert (Hm : In m (most_frequent eqb l)).
    { apply In_sort. rewrite E. now left. }
    apply most_frequent_spec in Hm as [Hin Hc].
    exists m, t. repeat split; trivial.
    + intros x Hx. rewrite Hc. now apply count_le_max_count.
    + intros x Hx Ex. apply (sort_head_least _ _ _ E).
      apply most_frequent_spec. split; [assumption | congruence].
Qed.
End ModeFacts.

(** Python compares strings by code point, as [String.leb] does. *)
Lemma ascii_compare_trans_le (a b c : ascii) :
  Ascii.compare a b <> Gt -> Ascii.compare b c <> Gt -> Ascii.compare a c <> Gt.
Proof.
  unfold Ascii.compare. rewrite !N.compare_gt_iff. lia.
Qed.

Lemma string_compare_trans_le (s1 : string) :
  forall s2 s3,
    String.compare s1 s2 <> Gt -> String.compare s2 s3 <> Gt ->
    String.compare s1 s3 <> Gt.
Proof.
  induction s1 as [|c1 s1 IH]; intros [|c2 s2] [|c3 s3]; simpl; try congruence.
  unfold Ascii.compare.
  destruct (N.compare_spec (N_of_ascii c1) (N_of_ascii c2)) as [E12|L12|G12];
    destruct (N.compare_spec (N_of_ascii c2) (N_of_ascii c3)) as [E23|L23|G23];
    destruct (N.compare_spec (N_of_ascii c1) (N_of_ascii c3)) as [E13|L13|G13];
    try congruence; try lia.
  apply IH.
Qed.

Lemma string_leb_trans (x y z : string) :
  String.leb x y = true -> String.leb y z = true -> String.leb x z = true.
Proof.
  unfold String.leb. intros H1 H2.
  pose proof (string_compare_trans_le x y z) as H.
  destruct (String.compare x y); destruct (String.compare y z);
    destruct (String.compare x z); try reflexivity; try discriminate;
    exfalso; apply H; congruence.
Qed.

(* ================================================================== *)
(** * Summary statistics *)

(** The statistics of the frame of a record set, in every arithmetic. *)
Lemma create_workout_stats_DataFrame_of {E} `{Floating E} (rs : RecordSet) :
  rs <> [] ->
  let types := map workoutType rs in
  exists m,
    create_workout_stats (DataFrame_of rs)
    = Ok (Some (mkStats (List.length rs) (wrap_int64 (total caloriesBurned rs))
                  (fdiv (of_int64 (total durationMinutes rs))
                        (of_int64 (Z.of_nat (List.length rs))))
                  (Str m)))
    /\ In m types
    /\ (forall x, In x types ->
          (count String.eqb x types <= count String.eqb m types)%nat)
    /\ (forall x, In x types ->
          count String.eqb x types = count String.eqb m types ->
          String.leb m x = true).
Proof.
  intros Hrs types.
  assert (Ht : types <> []) by (destruct rs; [congruence | discriminate]).
  destruct (modes_head String.eqb String.leb String.eqb_eq String.leb_total
              string_leb_trans types Ht) as [m [t [Em [Hin [Hmax Hleast]]]]].
  exists m. repeat split; trivial.
  unfold create_workout_stats.
  destruct (empty (DataFrame_of rs)) eqn:Ee.
  { apply empty_DataFrame_of in Ee. congruence. }
  cbn [negb].
  change (getitem (DataFrame_of rs) "Calories Burned")
    with (Ok (int_column caloriesBurned rs)).
  change (getitem (DataFrame_of rs) "Duration (mins)")
    with (Ok (int_column durationMinutes rs)).
  change (getitem (DataFrame_of rs) "Workout Type")
    with (Ok (Object (map (fun r => Some (workoutType r)) rs))).
  cbn [bind].
  rewrite Series_sum_int_column, Series_mean_int_column. cbn [bind Series_mode].
  rewrite (dropna_map_Some workoutType). fold types. rewrite Em.
  rewrite len_DataFrame_of. reflexivity.
Qed.

(** C6, as the claim states it, fails: [mode()] returns the most frequent
    values sorted, so of two equally frequent workout types the one that
    comes first in the order of strings wins, not the one logged first. *)
Lemma most_common_workout_not_first_encountered :
  let rs := [yoga (mkdate 2026 11 2); cycling (mkdate 2026 11 3)] in
  create_workout_stats (DataFrame_of rs)
  = Ok (Some (mkStats 2 550 37.5%float (Str "Cycling")))
  /\ first_encountered_mode (map workoutType rs) = Some "Yoga".
Proof. split; vm_compute; reflexivity. Qed.

(** C6 (amended): on a non-empty record set the statistics are the number
    of records, the total of the calories, the mean of the durations and a
    most frequent workout type; among equally frequent types it is the one
    that is least in the order of strings (code point by code point).  The
    total is the sum while [int64] holds it, and the mean is the quotient
    of the total duration by the number of records, rounded to binary64,
    while the absolute values of the durations add up to at most [2^53]. *)
Theorem create_workout_stats_spec (rs : RecordSet) :
  rs <> [] ->
  abs_total caloriesBurned rs <= int64_max ->
  abs_total durationMinutes rs <= 2 ^ 53 ->
  let types := map workoutType rs in
  exists m,
    create_workout_stats (DataFrame_of rs)
    = Ok (Some (mkStats (List.length rs) (total caloriesBurned rs)
                  (PrimFloat.div (float_of_Z (total durationMinutes rs))
                                 (float_of_Z (Z.of_nat (List.length rs))))
                  (Str m)))
    /\ In m types
    /\ (forall x, In x types ->
          (count String.eqb x types <= count String.eqb m types)%nat)
    /\ (forall x, In x types ->
          count String.eqb x types = count String.eqb m types ->
          String.leb m x = true).
Proof.
  intros Hrs Hc _ types.
  destruct (create_workout_stats_DataFrame_of (E := float) rs Hrs)
    as [m [Hstats Hm]].
  exists m. split; [|exact Hm].
  rewrite Hstats, (wrap_total caloriesBurned rs Hc). reflexivity.
Qed.

Lemma create_workout_stats_spec_witness :
  let rs := [yoga (mkdate 2026 11 2); cycling (mkdate 2026 11 3)] in
  rs <> []
  /\ abs_total caloriesBurned rs <= int64_max
  /\ abs_total durationMinutes rs <= 2 ^ 53
  /\ exists m,
       create_workout_stats (DataFrame_of rs)
       = Ok (Some (mkStats (List.length rs) (total caloriesBurned rs)
                     (PrimFloat.div (float_of_Z (total durationMinutes rs))
                                    (float_of_Z (Z.of_nat (List.length rs))))
                     (Str m)))
       /\ In m (map workoutType rs)
       /\ (forall x, In x (map workoutType rs) ->
             (count String.eqb x (map workoutType rs)
              <= count String.eqb m (map workoutType rs))%nat)
       /\ (forall x, In x (map workoutType rs) ->
             count String.eqb x (map workoutType rs)
             = count String.eqb m (map workoutType rs) ->
             String.leb m x = true).
Proof.
  intros rs.
  assert (H1 : rs <> []) by discriminate.
  assert (H2 : abs_total caloriesBurned rs <= int64_max) by (vm_compute; discriminate).
  assert (H3 : abs_total durationMinutes rs <= 2 ^ 53) by (vm_compute; discriminate).
  split; [exact H1|]. split; [exact H2|]. split; [exact H3|].
  exact (create_workout_stats_spec rs H1 H2 H3).
Defined.

(* ================================================================== *)
(** * The weekly rollup *)

Section SortNoDup.
Context {A : Type} (leb : A -> A -> bool).

Lemma NoDup_insert (x : A) (l : list A) :
  ~ In x l -> NoDup l -> NoDup (insert leb x l).
Proof.
  induction l as [|a l IH]; simpl; intros Hx Hl.
  - constructor; [tauto | constructor].
  - destruct (leb x a).
    + constructor; [simpl; tauto | assumption].
    + inversion Hl as [|? ? Ha Hl']; subst.
      constructor.
      * rewrite In_insert. intros [-> | H]; tauto.
      * apply IH; tauto.
Qed.

Lemma NoDup_sort (l : list A) : NoDup l -> NoDup (sort leb l).
Proof.
  induction 1 as [|a l Ha Hl IH]; simpl; [constructor|].
  apply NoDup_insert; [|assumption]. now rewrite In_sort.
Qed.
End SortNoDup.

Lemma Z_leb_total (x y : Z) : (x <=? y) = true \/ (y <=? x) = true.
Proof. rewrite !Z.leb_le. lia. Qed.

Lemma Z_leb_trans (x y z : Z) :
  (x <=? y) = true -> (y <=? z) = true -> (x <=? z) = true.
Proof. rewrite !Z.leb_le. lia. Qed.

(** An increasing list without repetition whose elements are [a] and [b]. *)
Lemma sorted_pair (a b : Z) (l : list Z) :
  a < b ->
  StronglySorted (fun x y => (x <=? y) = true) l ->
  NoDup l ->
  (forall x, In x l <-> x = a \/ x = b) ->
  l = [a; b].
Proof.
  intros Hab Hs Hn Hin.
  destruct l as [|h t].
  { exfalso. apply (Hin a). now left. }
  inversion Hs as [|? ? Hs' Hh]; subst.
  inversion Hn as [|? ? Hnh Hn']; subst.
  rewrite Forall_forall in Hh.
  assert (Eh : h = a).
  { destruct (proj1 (Hin h) (or_introl eq_refl)) as [E|E]; [assumption|].
    subst h. exfalso.
    destruct (proj2 (Hin a) (or_introl eq_refl)) as [E|Ha]; [lia|].
    apply Hh in Ha. apply Z.leb_le in Ha. lia. }
  subst h.
  assert (Hb : In b t).
  { destruct (proj2 (Hin b) (or_intror eq_refl)) as [E|H]; [lia | assumption]. }
  destruct t as [|h2 t2]; [contradiction|].
  inversion Hn' as [|? ? Hnh2 Hn2]; subst.
  assert (Eh2 : h2 = b).
  { destruct (proj1 (Hin h2) (or_intror (or_introl eq_refl))) as [E|E];
      [|assumption].
    subst h2. exfalso. apply Hnh. now left. }
  subst h2.
  destruct t2 as [|h3 t3]; [reflexivity|].
  exfalso.
  destruct (proj1 (Hin h3) (or_intror (or_intror (or_introl eq_refl)))) as [E|E];
    subst h3.
  - apply Hnh. right. now left.
  - apply Hnh2. now left.
Qed.

Lemma select_map {B} (k : Z) (g : WorkoutRecord -> B) (rs : RecordSet) :
  select k (map (fun r => Some (week_of r)) rs) (map g rs)
  = map g (filter (in_week k) rs).
Proof.
  unfold select, in_week. induction rs as [|r rs IH]; simpl; [reflexivity|].
  destruct (week_of r =? k); simpl; now rewrite IH.
Qed.

Lemma count_true_map {B} (l : list B) :
  List.length (filter (fun b : bool => b) (map (fun _ => true) l)) = List.length l.
Proof. induction l; simpl; congruence. Qed.

(** The rollup of the frame of a record set: one bucket per week number
    that occurs, in increasing order, with [int64] sums. *)
Lemma weekly_stats_DataFrame_of (rs : RecordSet) :
  weekly_stats (DataFrame_of rs)
  = Ok (map (fun k =>
               let own := filter (in_week k) rs in
               mkWeekRow k (wrap_int64 (total caloriesBurned own))
                 (wrap_int64 (total durationMinutes own)) (List.length own))
          (sort Z.leb (unique Z.eqb (map week_of rs)))).
Proof.
  unfold weekly_stats.
  change (getitem (DataFrame_of rs) "Date")
    with (Ok (Datetime64 (map (fun r => Some (entry_date r)) rs))).
  cbn [bind dt_isocalendar_week].
  assert (Ew : map (option_map iso_week) (map (fun r => Some (entry_date r)) rs)
              = map (fun r => Some (week_of r)) rs) by now rewrite map_map.
  rewrite Ew. clear Ew.
  set (weeks := map (fun r => Some (week_of r)) rs).
  set (wk := Float64 (map (option_map inject_Z) weeks)).
  change (getitem (setitem (DataFrame_of rs) "Week" wk) "Calories Burned")
    with (Ok (int_column caloriesBurned rs)).
  change (getitem (setitem (DataFrame_of rs) "Week" wk) "Duration (mins)")
    with (Ok (int_column durationMinutes rs)).
  change (getitem (setitem (DataFrame_of rs) "Week" wk) "Workout Type")
    with (Ok (Object (map (fun r => Some (workoutType r)) rs))).
  cbn [bind int_column int64_values]. f_equal.
  unfold weeks. rewrite (dropna_map_Some week_of).
  apply map_ext. intros k. cbv zeta. unfold total, notna, values.
  rewrite !select_map.
  rewrite !map_map. cbn [opt_value].
  rewrite (select_map k (fun _ => true)), count_true_map.
  reflexivity.
Qed.

(** While [int64] holds the sums, the buckets hold the totals of their
    weeks. *)
Lemma weekly_stats_exact (rs : RecordSet) :
  abs_total caloriesBurned rs <= int64_max ->
  abs_total durationMinutes rs <= int64_max ->
  weekly_stats (DataFrame_of rs)
  = Ok (map (bucket rs) (sort Z.leb (unique Z.eqb (map week_of rs)))).
Proof.
  intros Hc Hd. rewrite weekly_stats_DataFrame_of. f_equal.
  apply map_ext. intros k. unfold bucket. cbv zeta.
  now rewrite !wrap_total_filter by assumption.
Qed.

Lemma bucket_nonempty (rs : RecordSet) (k : Z) :
  (exists r, In r rs /\ week_of r = k) -> (1 <= Workout_Type (bucket rs k))%nat.
Proof.
  intros [r [Hr Hk]]. unfold bucket. cbn [Workout_Type].
  assert (H : In r (filter (in_week k) rs)).
  { apply filter_In. split; [assumption|]. unfold in_week. now apply Z.eqb_eq. }
  destruct (filter (in_week k) rs); [contradiction | simpl; lia].
Qed.

(** The groups are keyed by the week number alone: 2024-01-01 lies in week
    1 of the ISO year 2024 and 2024-12-30 in week 1 of the ISO year 2025,
    and both fall into the bucket of week number 1. *)
Example weekly_stats_merges_weeks_of_different_years :
  let rs := [yoga (mkdate 2024 1 1); cycling (mkdate 2024 12 30)] in
  iso_calendar_week (mkdate 2024 1 1) = (2024, 1)
  /\ iso_calendar_week (mkdate 2024 12 30) = (2025, 1)
  /\ weekly_stats (DataFrame_of rs) = Ok [mkWeekRow 1 550 75 2].
Proof. repeat split. Qed.

(** C7, as the claim states it, fails: the group sums are [int64] sums,
    and they wrap around.  Of three records in the weeks 44 and 45, the two
    of week 45 burn [2^62] calories each; the bucket of week 45 then holds
    [-2^63], not their sum [2^63]. *)
Lemma weekly_stats_sums_wrap_around :
  let rs := [mkRecord (mkdate 2026 10 27) "Cycling" 45 400 28 "Female" 130 371;
             mkRecord (mkdate 2026 11 2) "Yoga" 30 (2 ^ 62) 28 "Female" 110 368;
             mkRecord (mkdate 2026 11 3) "Yoga" 30 (2 ^ 62) 28 "Female" 110 368] in
  map week_of rs = [44; 45; 45]
  /\ forallb loadable rs = true
  /\ total caloriesBurned (filter (in_week 45) rs) = 2 ^ 63
  /\ weekly_stats (DataFrame_of rs)
     = Ok [mkWeekRow 44 400 45 1; mkWeekRow 45 (- 2 ^ 63) 60 2].
Proof. repeat split; vm_compute; reflexivity. Qed.

(** C7 (amended): when the records carry exactly two distinct ISO week
    numbers, and the absolute values of their calories and of their
    durations add up within the range of [int64], the rollup has exactly
    two buckets, in increasing order of the week number; each holds the sum
    of the calories, the sum of the durations and the number of the records
    with its own week number, and no bucket is without records. *)
Theorem weekly_stats_two_weeks (rs : RecordSet) (a b : Z) :
  a < b ->
  (forall r, In r rs -> week_of r = a \/ week_of r = b) ->
  (exists r, In r rs /\ week_of r = a) ->
  (exists r, In r rs /\ week_of r = b) ->
  abs_total caloriesBurned rs <= int64_max ->
  abs_total durationMinutes rs <= int64_max ->
  weekly_stats (DataFrame_of rs) = Ok [bucket rs a; bucket rs b]
  /\ (1 <= Workout_Type (bucket rs a))%nat
  /\ (1 <= Workout_Type (bucket rs b))%nat.
Proof.
  intros Hab Hall Ha Hb Hc Hd.
  split; [|split; now apply bucket_nonempty].
  rewrite weekly_stats_exact by assumption.
  rewrite (sorted_pair a b (sort Z.leb (unique Z.eqb (map week_of rs)))); trivial.
  - apply (sort_sorted Z.leb Z_leb_total Z_leb_trans).
  - apply NoDup_sort, (NoDup_unique Z.eqb Z.eqb_eq).
  - intros x. rewrite In_sort, (In_unique Z.eqb Z.eqb_eq), in_map_iff. split.
    + intros [r [<- Hr]]. now apply Hall.
    + intros [-> | ->].
      * destruct Ha as [r [Hr Er]]. now exists r.
      * destruct Hb as [r [Hr Er]]. now exists r.
Qed.

Lemma weekly_stats_two_weeks_witness :
  let rs := [yoga (mkdate 2026 11 2); cycling (mkdate 2026 10 27);
             yoga (mkdate 2026 11 3)] in
  44 < 45
  /\ (forall r, In r rs -> week_of r = 44 \/ week_of r = 45)
  /\ (exists r, In r rs /\ week_of r = 44)
  /\ (exists r, In r rs /\ week_of r = 45)
  /\ abs_total caloriesBurned rs <= int64_max
  /\ abs_total durationMinutes rs <= int64_max
  /\ weekly_stats (DataFrame_of rs) = Ok [bucket rs 44; bucket rs 45]
  /\ (1 <= Workout_Type (bucket rs 44))%nat
  /\ (1 <= Workout_Type (bucket rs 45))%nat.
Proof.
  intros rs.
  assert (H1 : 44 < 45) by lia.
  assert (H2 : forall r, In r rs -> week_of r = 44 \/ week_of r = 45).
  { intros r [<- | [<- | [<- | []]]]; vm_compute; auto. }
  assert (H3 : exists r, In r rs /\ week_of r = 44).
  { exists (cycling (mkdate 2026 10 27)). split; [simpl; auto | reflexivity]. }
  assert (H4 : exists r, In r rs /\ week_of r = 45).
  { exists (yoga (mkdate 2026 11 2)). split; [simpl; auto | reflexivity]. }
  assert (H5 : abs_total caloriesBurned rs <= int64_max) by (vm_compute; discriminate).
  assert (H6 : abs_total durationMinutes rs <= int64_max) by (vm_compute; discriminate).
  repeat (split; [assumption|]).
  exact (weekly_stats_two_weeks rs 44 45 H1 H2 H3 H4 H5 H6).
Defined.

(* ================================================================== *)
(** * Training the model *)

(** [train_model] on the frame of a record set, whatever the library's
    [fit] returns: no model below two records, and otherwise the model
    fitted to the durations (feature) and the calories (target), with the
    duration column as [X]. *)
Lemma train_model_DataFrame_of {F} (fit : list Q -> list Q -> LinearRegression F)
    (rs : RecordSet) :
  train_model fit (DataFrame_of rs)
  = if (List.length rs <? 2)%nat then Ok None
    else Ok (Some (fit (map inject_Z (map durationMinutes rs))
                       (map inject_Z (map caloriesBurned rs)),
                   int_column durationMinutes rs)).
Proof.
  unfold train_model. rewrite len_DataFrame_of.
  destruct (List.length rs <? 2)%nat eqn:El; [reflexivity|].
  change (getitem (DataFrame_of rs) "Duration (mins)")
    with (Ok (int_column durationMinutes rs)).
  change (getitem (DataFrame_of rs) "Calories Burned")
    with (Ok (int_column caloriesBurned rs)).
  cbn [bind]. unfold LinearRegression_fit, int_column, as_float_array.
  cbn [bind]. destruct rs; [discriminate | reflexivity].
Qed.

(** X13: [train_model] raises nothing on the frame of a record set.  It
    gives no model exactly when the set has fewer than two records; from two
    records on it gives the model that the library fits to the durations
    (feature) and the calories (target) of all the records, in the order of
    the set, whatever that fit computes, and the duration column as [X]. *)
Theorem train_model_from_two_records {F}
    (fit : list Q -> list Q -> LinearRegression F) (rs : RecordSet) :
  (train_model fit (DataFrame_of rs) = Ok None <-> (List.length rs < 2)%nat)
  /\ ((List.length rs < 2)%nat
      \/ train_model fit (DataFrame_of rs)
         = Ok (Some (fit (map inject_Z (map durationMinutes rs))
                         (map inject_Z (map caloriesBurned rs)),
                     int_column durationMinutes rs))).
Proof.
  rewrite train_model_DataFrame_of.
  destruct (List.length rs <? 2)%nat eqn:El.
  - apply Nat.ltb_lt in El. tauto.
  - apply Nat.ltb_ge in El. split; [|now right].
    split; [discriminate | lia].
Qed.

(* ================================================================== *)
(** * Decimal text read back *)

Lemma is_digit_not_punct (c : ascii) :
  is_digit c = true ->
  Ascii.eqb c "." = false /\ Ascii.eqb c "-" = false /\ Ascii.eqb c "+" = false.
Proof.
  intros H.
  assert (G : forall x, is_digit x = false -> Ascii.eqb c x = false).
  { intros x Hx. destruct (Ascii.eqb_spec c x) as [->|_]; [congruence | reflexivity]. }
  repeat split; apply G; reflexivity.
Qed.

Lemma digits_of_uint (d : Decimal.uint) :
  all_chars is_digit (NilEmpty.string_of_uint d) = true.
Proof. induction d; simpl; auto. Qed.

Lemma NilZero_string_of_uint_nonnil (d : Decimal.uint) :
  d <> Decimal.Nil -> NilZero.string_of_uint d = NilEmpty.string_of_uint d.
Proof. destruct d; simpl; congruence. Qed.

Lemma split_dot_digits (s : string) :
  all_chars is_digit s = true -> split_dot s = (s, None).
Proof.
  induction s as [|c s IH]; simpl; [reflexivity|].
  intros H. apply andb_prop in H as [Hc Hs].
  destruct (is_digit_not_punct c Hc) as [-> _]. now rewrite IH.
Qed.

Lemma split_dot_app (s rest : string) :
  all_chars is_digit s = true ->
  split_dot (s ++ String "." rest) = (s, Some rest).
Proof.
  induction s as [|c s IH]; simpl; [reflexivity|].
  intros H. apply andb_prop in H as [Hc Hs].
  destruct (is_digit_not_punct c Hc) as [-> _]. now rewrite IH.
Qed.

Lemma parse_number_digits (s : string) :
  all_chars is_digit s = true -> parse_number s = parse_unsigned s.
Proof.
  destruct s as [|c s]; [reflexivity|]. simpl. intros H.
  apply andb_prop in H as [Hc _].
  destruct (is_digit_not_punct c Hc) as [_ [-> ->]]. reflexivity.
Qed.

Lemma Z_of_uint_to_uint (n : N) : Z.of_uint (N.to_uint n) = Z.of_N n.
Proof.
  unfold Z.of_uint. f_equal. apply DecimalN.Unsigned.of_to.
Qed.

Lemma N_to_uint_nonnil (n : N) : N.to_uint n <> Decimal.Nil.
Proof.
  destruct n; simpl; [discriminate | apply DecimalPos.Unsigned.to_uint_nonnil].
Qed.

(** The text of a non-negative integer. *)
Lemma str_int_nonneg (z : Z) :
  0 <= z -> str_int z = NilEmpty.string_of_uint (N.to_uint (Z.to_N z)).
Proof.
  intros Hz. unfold str_int.
  destruct z as [|p|p]; [reflexivity| |lia].
  simpl. apply NilZero_string_of_uint_nonnil, DecimalPos.Unsigned.to_uint_nonnil.
Qed.

Lemma str_int_digits (z : Z) : 0 <= z -> all_chars is_digit (str_int z) = true.
Proof. intros Hz. rewrite str_int_nonneg by assumption. apply digits_of_uint. Qed.

Lemma uint_of_str_int (z : Z) :
  0 <= z -> NilEmpty.uint_of_string (str_int z) = Some (N.to_uint (Z.to_N z)).
Proof. intros Hz. rewrite str_int_nonneg by assumption. apply NilEmpty.usu. Qed.

Lemma str_int_nonempty (z : Z) : str_int z <> "".
Proof.
  unfold str_int. destruct z as [|p|p]; simpl; try discriminate.
  rewrite NilZero_string_of_uint_nonnil
    by apply DecimalPos.Unsigned.to_uint_nonnil.
  pose proof (DecimalPos.Unsigned.to_uint_nonnil p) as H.
  destruct (Pos.to_uint p); simpl; congruence.
Qed.

Lemma parse_unsigned_str_int (z : Z) :
  0 <= z -> parse_unsigned (str_int z) = Some (inject_Z z).
Proof.
  intros Hz. unfold parse_unsigned.
  rewrite split_dot_digits by now apply str_int_digits.
  pose proof (str_int_nonempty z) as Hne.
  unfold NilZero.uint_of_string.
  destruct (str_int z) eqn:E; [congruence|]. rewrite <- E.
  rewrite uint_of_str_int by assumption.
  rewrite Z_of_uint_to_uint, Z2N.id by assumption. reflexivity.
Qed.

(** [str] of an integer is read back as that integer. *)
Lemma parse_number_str_int (z : Z) : parse_number (str_int z) = Some (inject_Z z).
Proof.
  destruct z as [|p|p].
  - reflexivity.
  - rewrite parse_number_digits by now apply str_int_digits.
    now apply parse_unsigned_str_int.
  - change (str_int (Z.neg p)) with (String "-" (str_int (Z.pos p))).
    cbn [parse_number]. rewrite Ascii.eqb_refl.
    rewrite parse_unsigned_str_int by lia. reflexivity.
Qed.

Lemma str_int_one_digit (z : Z) :
  0 <= z < 10 -> String.length (str_int z) = 1%nat.
Proof.
  intros H.
  assert (C : z = 0 \/ z = 1 \/ z = 2 \/ z = 3 \/ z = 4 \/ z = 5 \/ z = 6
              \/ z = 7 \/ z = 8 \/ z = 9) by lia.
  repeat (destruct C as [-> | C]; [reflexivity|]). now subst.
Qed.

Lemma parse_unsigned_tenths (m : Z) :
  0 <= m ->
  parse_unsigned (str_int (m / 10) ++ "." ++ str_int (m mod 10)) = Some (m # 10).
Proof.
  intros Hm.
  assert (Hq : 0 <= m / 10) by (apply Z.div_pos; lia).
  assert (Hf : 0 <= m mod 10 < 10) by (apply Z.mod_pos_bound; lia).
  unfold parse_unsigned. cbn [append].
  rewrite split_dot_app by now apply str_int_digits.
  rewrite !uint_of_str_int by lia.
  rewrite (str_int_one_digit (m mod 10)) by assumption.
  rewrite Nat.add_1_r. cbn [Nat.eqb].
  rewrite !Z_of_uint_to_uint, !Z2N.id by lia.
  change (Z.pos (pow10 1)) with 10. change (pow10 1) with 10%positive.
  do 2 f_equal. pose proof (Z.div_mod m 10). lia.
Qed.

(** A temperature in tenths is read back as that number of tenths. *)
Lemma parse_number_str_tenths (t : Z) : parse_number (str_tenths t) = Some (t # 10).
Proof.
  unfold str_tenths. destruct (t <? 0) eqn:E.
  - apply Z.ltb_lt in E. cbn [append parse_number]. rewrite Ascii.eqb_refl.
    change (str_int (Z.abs t / 10) ++ String "." (str_int (Z.abs t mod 10)))
      with (str_int (Z.abs t / 10) ++ "." ++ str_int (Z.abs t mod 10)).
    rewrite parse_unsigned_tenths by lia. unfold option_map, Qopp. cbn [Qnum Qden].
    do 2 f_equal. lia.
  - apply Z.ltb_ge in E. cbn [append].
    assert (Hq : 0 <= Z.abs t / 10) by (apply Z.div_pos; lia).
    pose proof (str_int_nonempty (Z.abs t / 10)) as Hne.
    pose proof (str_int_digits (Z.abs t / 10) Hq) as Hd.
    destruct (str_int (Z.abs t / 10)) as [|c s] eqn:Es; [congruence|].
    cbn [append parse_number]. simpl in Hd. apply andb_prop in Hd as [Hc _].
    destruct (is_digit_not_punct c Hc) as [_ [-> ->]].
    change (String c (s ++ String "." (str_int (Z.abs t mod 10))))
      with (String c s ++ "." ++ str_int (Z.abs t mod 10)).
    rewrite <- Es, parse_unsigned_tenths by lia.
    do 2 f_equal. lia.
Qed.

(** A missing-value marker is no numeric literal. *)
Lemma na_not_number (s : string) : is_na s = true -> parse_number s = None.
Proof.
  unfold is_na. rewrite existsb_exists. intros [x [Hx E]].
  apply String.eqb_eq in E. subst x.
  unfold na_values in Hx. simpl in Hx.
  repeat (destruct Hx as [<- | Hx]; [reflexivity|]). contradiction.
Qed.

Lemma number_not_na (s : string) (q : Q) : parse_number s = Some q -> is_na s = false.
Proof.
  intros H. destruct (is_na s) eqn:E; [|reflexivity].
  apply na_not_number in E. congruence.
Qed.

(* ================================================================== *)
(** * Dates read back *)


Lemma four_digit_years_checked :
  forallb (fun y => String.eqb (str_int y) (pad4 y)) four_digit_years = true.
Proof. vm_compute. reflexivity. Qed.

(** From year 1000 to year 9999, [%Y] prints four digits. *)
Lemma str_int_four_digits (y : Z) : 1000 <= y <= 9999 -> str_int y = pad4 y.
Proof.
  intros Hy. apply String.eqb_eq.
  pose proof four_digit_years_checked as H. rewrite forallb_forall in H.
  apply H. unfold four_digit_years. apply in_flat_map.
  assert (Ha : 10 <= y / 100 <= 99) by div_lia.
  assert (Hb : 0 <= y mod 100 <= 99) by div_lia.
  assert (E : y = 100 * (y / 100) + y mod 100) by div_lia.
  exists (Z.to_nat (y / 100)). split; [apply in_seq; lia|].
  apply in_map_iff. exists (Z.to_nat (y mod 100)).
  split; [lia | apply in_seq; lia].
Qed.

Lemma digit_val_digit_char (k : Z) : 0 <= k < 10 -> digit_val (digit_char k) = Some k.
Proof.
  intros H.
  assert (C : k = 0 \/ k = 1 \/ k = 2 \/ k = 3 \/ k = 4 \/ k = 5 \/ k = 6
              \/ k = 7 \/ k = 8 \/ k = 9) by lia.
  repeat (destruct C as [-> | C]; [reflexivity|]). now subst.
Qed.

Lemma is_digit_digit_char (k : Z) : 0 <= k < 10 -> is_digit (digit_char k) = true.
Proof. intros H. unfold is_digit. now rewrite digit_val_digit_char. Qed.

Lemma digits2_digit_chars (a b : Z) :
  0 <= a < 10 -> 0 <= b < 10 ->
  digits2 (digit_char a) (digit_char b) = Some (10 * a + b).
Proof.
  intros Ha Hb. unfold digits2. now rewrite !digit_val_digit_char.
Qed.

Lemma _days_in_month_le_31 (y m : Z) : 1 <= m <= 12 -> _days_in_month y m <= 31.
Proof.
  intros H. unfold _days_in_month.
  assert (C : m = 1 \/ m = 2 \/ m = 3 \/ m = 4 \/ m = 5 \/ m = 6 \/ m = 7
              \/ m = 8 \/ m = 9 \/ m = 10 \/ m = 11 \/ m = 12) by lia.
  repeat (destruct C as [-> | C];
          [destruct (_is_leap y); simpl; lia|]).
  subst. destruct (_is_leap y); simpl; lia.
Qed.

Lemma valid_date_bounds (d : date) :
  valid_date d = true ->
  1 <= year d <= 9999 /\ 1 <= month d <= 12 /\ 1 <= day d <= 31.
Proof.
  unfold valid_date. rewrite !andb_true_iff, !Z.leb_le.
  intros [[[[[H1 H2] H3] H4] H5] H6].
  pose proof (_days_in_month_le_31 (year d) (month d)). lia.
Qed.

(** The text [strftime] writes for a date, digit by digit. *)
Lemma strftime_Ymd_digits (d : date) :
  1000 <= year d <= 9999 ->
  strftime_Ymd d
  = String (digit_char (year d / 1000))
      (String (digit_char (year d / 100 mod 10))
         (String (digit_char (year d / 10 mod 10))
            (String (digit_char (year d mod 10))
               (String "-"
                  (String (digit_char (month d / 10))
                     (String (digit_char (month d mod 10))
                        (String "-"
                           (String (digit_char (day d / 10))
                              (String (digit_char (day d mod 10)) ""))))))))).
Proof.
  intros Hy. unfold strftime_Ymd. rewrite str_int_four_digits by assumption.
  reflexivity.
Qed.

(** The date [log_workout] writes is read back as the same date. *)
Lemma parse_Ymd_strftime (d : date) :
  valid_date d = true -> 1000 <= year d ->
  parse_Ymd (strftime_Ymd d) = Some d.
Proof.
  intros Hv Hy. destruct (valid_date_bounds d Hv) as [Hy' [Hm Hd]].
  rewrite strftime_Ymd_digits by lia.
  cbv beta iota delta [parse_Ymd].
  rewrite !digits2_digit_chars by div_lia.
  replace (100 * (10 * (year d / 1000) + year d / 100 mod 10)
           + (10 * (year d / 10 mod 10) + year d mod 10)) with (year d) by div_lia.
  replace (10 * (month d / 10) + month d mod 10) with (month d) by div_lia.
  replace (10 * (day d / 10) + day d mod 10) with (day d) by div_lia.
  destruct d as [y m dd]. cbn [year month day] in *. now rewrite Hv.
Qed.

Lemma na_not_Ymd (s : string) : is_na s = true -> parse_Ymd s = None.
Proof.
  unfold is_na. rewrite existsb_exists. intros [x [Hx E]].
  apply String.eqb_eq in E. subst x.
  unfold na_values in Hx. simpl in Hx.
  repeat (destruct Hx as [<- | Hx]; [reflexivity|]). contradiction.
Qed.

Lemma bool_not_Ymd (s : string) : is_bool s = true -> parse_Ymd s = None.
Proof.
  unfold is_bool. rewrite orb_true_iff, !existsb_exists.
  intros [[x [Hx E]] | [x [Hx E]]]; apply String.eqb_eq in E; subst x;
    simpl in Hx;
    repeat (destruct Hx as [<- | Hx]; [reflexivity|]); contradiction.
Qed.

Lemma uint_of_char_None (c : ascii) : uint_of_char c None = None.
Proof. reflexivity. Qed.

Lemma uint_of_string_dash (a b c d : ascii) (rest : string) :
  NilEmpty.uint_of_string
    (String a (String b (String c (String d (String "-" rest))))) = None.
Proof.
  cbn [NilEmpty.uint_of_string].
  assert (E : uint_of_char "-" (NilEmpty.uint_of_string rest) = None)
    by (destruct (NilEmpty.uint_of_string rest); reflexivity).
  rewrite E. reflexivity.
Qed.

(** A date text is no numeric literal. *)
Lemma number_not_date_text (a b c d : ascii) (rest : string) :
  is_digit a = true -> is_digit b = true -> is_digit c = true -> is_digit d = true ->
  parse_number (String a (String b (String c (String d (String "-" rest))))) = None.
Proof.
  intros Ha Hb Hc Hd.
  destruct (is_digit_not_punct a Ha) as [Ea [Ea1 Ea2]].
  destruct (is_digit_not_punct b Hb) as [Eb _].
  destruct (is_digit_not_punct c Hc) as [Ec _].
  destruct (is_digit_not_punct d Hd) as [Ed _].
  cbn [parse_number]. rewrite Ea1, Ea2.
  unfold parse_unsigned. cbn [split_dot]. rewrite Ea, Eb, Ec, Ed.
  change (Ascii.eqb "-" ".") with false. cbv iota.
  destruct (split_dot rest) as [i [f|]].
  - now rewrite uint_of_string_dash.
  - unfold NilZero.uint_of_string. now rewrite uint_of_string_dash.
Qed.

Lemma strftime_reads_as_text (d : date) :
  valid_date d = true -> 1000 <= year d ->
  reads_as_text (strftime_Ymd d) = true.
Proof.
  intros Hv Hy. pose proof (parse_Ymd_strftime d Hv Hy) as P.
  destruct (valid_date_bounds d Hv) as [Hy' _].
  unfold reads_as_text. rewrite !andb_true_iff, !negb_true_iff. repeat split.
  - destruct (is_na (strftime_Ymd d)) eqn:E; [|reflexivity].
    apply na_not_Ymd in E. congruence.
  - unfold is_number. rewrite strftime_Ymd_digits by lia.
    rewrite number_not_date_text; [reflexivity| | | |];
      apply is_digit_digit_char; div_lia.
  - destruct (is_bool (strftime_Ymd d)) eqn:E; [|reflexivity].
    apply bool_not_Ymd in E. congruence.
  - unfold is_Ymd. rewrite P. apply orb_true_r.
Qed.

(* ================================================================== *)
(** * Numbers read back *)

Lemma parse_int64_str_int (z : Z) :
  fits_int64 z = true -> parse_int64 (str_int z) = Some z.
Proof.
  intros H. unfold parse_int64. rewrite parse_number_str_int.
  cbn [Qnum inject_Z]. now rewrite String.eqb_refl, H.
Qed.

Lemma parse_tenths_str_tenths (t : Z) :
  tenths_range t = true -> parse_tenths (str_tenths t) = Some t.
Proof.
  intros H. unfold parse_tenths. rewrite parse_number_str_tenths.
  cbn [Qnum]. now rewrite String.eqb_refl, H.
Qed.

(** The text of a number of tenths is not the text of an integer. *)
Lemma str_tenths_not_str_int (t z : Z) : String.eqb (str_tenths t) (str_int z) = false.
Proof.
  destruct (String.eqb_spec (str_tenths t) (str_int z)) as [E|]; [|reflexivity].
  pose proof (parse_number_str_tenths t) as P. rewrite E in P.
  rewrite parse_number_str_int in P. discriminate P.
Qed.

Lemma parse_int64_str_tenths (t : Z) : parse_int64 (str_tenths t) = None.
Proof.
  unfold parse_int64. rewrite parse_number_str_tenths.
  now rewrite str_tenths_not_str_int.
Qed.

Lemma all_some_map_Some {A B} (g : A -> B) (l : list A) :
  all_some (map (fun a => Some (g a)) l) = Some (map g l).
Proof. induction l as [|a l IH]; simpl; [reflexivity|]. now rewrite IH. Qed.

(* ================================================================== *)
(** * Loading a table of logged rows *)

Lemma infer_column_int64 {A} (txt : A -> string) (val : A -> Z) (l : list A) :
  l <> [] ->
  (forall a, In a l -> txt a = str_int (val a) /\ fits_int64 (val a) = true) ->
  infer_column (map txt l) = Ok (Int64 (map val l)).
Proof.
  intros Hl Hp. unfold infer_column.
  destruct l as [|a0 l0]; [congruence|].
  set (l := a0 :: l0) in *. change (map txt l) with (txt a0 :: map txt l0) at 1.
  cbv iota.
  assert (Hna : forallb is_na (map txt l) = false).
  { unfold l. cbn [map forallb].
    destruct (Hp a0 (or_introl eq_refl)) as [-> _].
    now rewrite (number_not_na _ _ (parse_number_str_int (val a0))). }
  rewrite Hna, map_map.
  rewrite (map_ext_in _ (fun a => Some (val a))).
  - now rewrite all_some_map_Some.
  - intros a Ha. destruct (Hp a Ha) as [-> Hf]. now apply parse_int64_str_int.
Qed.

Lemma infer_column_tenths {A} (val : A -> Z) (l : list A) :
  l <> [] ->
  (forall a, In a l -> tenths_range (val a) = true) ->
  infer_column (map (fun a => str_tenths (val a)) l)
  = Ok (Float64 (map (fun a => Some (val a # 10)) l)).
Proof.
  intros Hl Hp. unfold infer_column.
  destruct l as [|a0 l0]; [congruence|].
  set (l := a0 :: l0) in *.
  change (map (fun a => str_tenths (val a)) l)
    with (str_tenths (val a0) :: map (fun a => str_tenths (val a)) l0) at 1.
  cbv iota.
  assert (Hna : forall a, is_na (str_tenths (val a)) = false).
  { intros a. exact (number_not_na _ _ (parse_number_str_tenths (val a))). }
  assert (E1 : forallb is_na (map (fun a => str_tenths (val a)) l) = false).
  { unfold l. cbn [map forallb]. now rewrite Hna. }
  assert (E2 : all_some (map parse_int64 (map (fun a => str_tenths (val a)) l)) = None).
  { unfold l. cbn [map all_some]. now rewrite parse_int64_str_tenths. }
  rewrite E1, E2, map_map.
  rewrite (map_ext_in _ (fun a => Some (Some (val a # 10)))).
  - now rewrite all_some_map_Some.
  - intros a Ha. unfold float64_cell.
    now rewrite Hna, parse_int64_str_tenths, (parse_tenths_str_tenths _ (Hp a Ha)).
Qed.

Lemma reads_as_text_inv (s : string) :
  reads_as_text s = true -> is_na s = false /\ is_number s = false /\ is_bool s = false.
Proof.
  unfold reads_as_text. rewrite !andb_true_iff, !negb_true_iff. tauto.
Qed.

Lemma not_number_not_cell (s : string) :
  is_na s = false -> is_number s = false ->
  parse_int64 s = None /\ float64_cell s = None.
Proof.
  unfold is_number, float64_cell, parse_int64, parse_tenths. intros -> H.
  destruct (parse_number s); [discriminate | split; reflexivity].
Qed.

Lemma infer_column_text {A} (txt : A -> string) (l : list A) :
  l <> [] ->
  (forall a, In a l -> reads_as_text (txt a) = true) ->
  infer_column (map txt l) = Ok (Object (map (fun a => Some (txt a)) l)).
Proof.
  intros Hl Ht. destruct l as [|a l]; [congruence|].
  pose proof (Ht a (or_introl eq_refl)) as Ha.
  destruct (reads_as_text_inv _ Ha) as [Ena [Enum Ebool]].
  destruct (not_number_not_cell _ Ena Enum) as [Eint Ecell].
  unfold infer_column. cbn [map forallb all_some existsb].
  rewrite Ena, Eint, Ecell, Ebool, Ha. cbn [orb andb].
  assert (Hall : forallb (fun c => is_na c || reads_as_text c) (map txt l) = true).
  { apply forallb_forall. intros c Hc. apply in_map_iff in Hc as [b [<- Hb]].
    rewrite (Ht b (or_intror Hb)). apply orb_true_r. }
  rewrite Hall.
  f_equal. f_equal. f_equal. rewrite map_map. apply map_ext_in. intros b Hb.
  destruct (reads_as_text_inv _ (Ht b (or_intror Hb))) as [-> _]. reflexivity.
Qed.

Lemma infer_column_all_na {A} (txt : A -> string) (l : list A) :
  l <> [] ->
  (forall a, In a l -> is_na (txt a) = true) ->
  infer_column (map txt l) = Ok (Float64 (map (fun _ => None) l)).
Proof.
  intros Hl Hna. unfold infer_column.
  destruct (map txt l) eqn:E; [destruct l; [congruence | discriminate]|].
  rewrite <- E. clear E.
  assert (Hall : forallb is_na (map txt l) = true).
  { apply forallb_forall. intros x Hx. apply in_map_iff in Hx as [a [<- Ha]].
    now apply Hna. }
  rewrite Hall. now rewrite map_map.
Qed.

Lemma rows_fit_header (rs : RecordSet) :
  existsb (fun r => (List.length HEADER <? List.length r)%nat) (map csv_row_of rs)
  = false.
Proof. induction rs; simpl; auto. Qed.

Lemma rows_not_blank (rs : RecordSet) :
  existsb (fun r => (List.length r =? 0)%nat) (HEADER :: map csv_row_of rs) = false.
Proof. cbn [existsb]. induction rs; simpl; auto. Qed.

Lemma first_row_fits (rs : RecordSet) :
  match map csv_row_of rs with
  | first :: _ => (List.length HEADER <? List.length first)%nat
  | [] => false
  end = false.
Proof. destruct rs; reflexivity. Qed.

Lemma numbers_load_inv (r : WorkoutRecord) :
  numbers_load r = true ->
  fits_int64 (durationMinutes r) = true /\ fits_int64 (caloriesBurned r) = true
  /\ fits_int64 (entry_age r) = true /\ fits_int64 (heartRateBpm r) = true
  /\ tenths_range (bodyTemperature r) = true.
Proof. unfold numbers_load. rewrite !andb_true_iff. tauto. Qed.

Lemma loadable_inv (r : WorkoutRecord) :
  loadable r = true ->
  valid_date (entry_date r) = true /\ 1000 <= year (entry_date r)
  /\ in_Timestamp_range (entry_date r) = true
  /\ reads_as_text (workoutType r) = true /\ reads_as_text (entry_gender r) = true
  /\ numbers_load r = true.
Proof.
  unfold loadable. rewrite !andb_true_iff, Z.leb_le. tauto.
Qed.

Lemma forallb_loadable_In (rs : RecordSet) (r : WorkoutRecord) :
  forallb loadable rs = true -> In r rs -> loadable r = true.
Proof. intros H. now apply forallb_forall. Qed.

(** What [read_csv] makes of a table of rows whose dates, genders and
    numbers load, with the column [types] that the workout types give. *)
Lemma read_csv_rows (rs : RecordSet) (types : Series) :
  rs <> [] ->
  (forall r, In r rs ->
     valid_date (entry_date r) = true /\ 1000 <= year (entry_date r)
     /\ reads_as_text (entry_gender r) = true /\ numbers_load r = true) ->
  infer_column (map workoutType rs) = Ok types ->
  read_csv (Some (table_of rs))
  = Ok [("Date", Object (map (fun r => Some (strftime_Ymd (entry_date r))) rs));
        ("Workout Type", types);
        ("Duration (mins)", int_column durationMinutes rs);
        ("Calories Burned", int_column caloriesBurned rs);
        ("Age", int_column entry_age rs);
        ("Gender", Object (map (fun r => Some (entry_gender r)) rs));
        ("Heart Rate", int_column heartRateBpm rs);
        ("Body Temperature",
         Float64 (map (fun r => Some (bodyTemperature r # 10)) rs))].
Proof.
  intros Hrs Hall Htypes. unfold read_csv, table_of.
  rewrite rows_not_blank, first_row_fits, rows_fit_header.
  cbn [List.length HEADER seq mapM nth]. rewrite !map_map.
  cbn [csv_row_of csv_row nth].
  rewrite (infer_column_text (fun r => strftime_Ymd (entry_date r))); trivial.
  2:{ intros r Hr. destruct (Hall r Hr) as [Hv [Hy _]].
      now apply strftime_reads_as_text. }
  change (infer_column (map (fun r => workoutType r) rs))
    with (infer_column (map workoutType rs)).
  rewrite Htypes.
  rewrite (infer_column_text entry_gender); trivial.
  2:{ intros r Hr. now destruct (Hall r Hr) as [_ [_ [Hg _]]]. }
  rewrite (infer_column_int64 (fun r => str_int (durationMinutes r)) durationMinutes);
    trivial.
  2:{ intros r Hr. destruct (Hall r Hr) as [_ [_ [_ Hn]]].
      apply numbers_load_inv in Hn. tauto. }
  rewrite (infer_column_int64 (fun r => str_int (caloriesBurned r)) caloriesBurned);
    trivial.
  2:{ intros r Hr. destruct (Hall r Hr) as [_ [_ [_ Hn]]].
      apply numbers_load_inv in Hn. tauto. }
  rewrite (infer_column_int64 (fun r => str_int (entry_age r)) entry_age); trivial.
  2:{ intros r Hr. destruct (Hall r Hr) as [_ [_ [_ Hn]]].
      apply numbers_load_inv in Hn. tauto. }
  rewrite (infer_column_int64 (fun r => str_int (heartRateBpm r)) heartRateBpm);
    trivial.
  2:{ intros r Hr. destruct (Hall r Hr) as [_ [_ [_ Hn]]].
      apply numbers_load_inv in Hn. tauto. }
  rewrite (infer_column_tenths bodyTemperature); [reflexivity | assumption |].
  intros r Hr. destruct (Hall r Hr) as [_ [_ [_ Hn]]].
  apply numbers_load_inv in Hn. tauto.
Qed.

Lemma read_csv_table_of (rs : RecordSet) :
  rs <> [] -> forallb loadable rs = true ->
  read_csv (Some (table_of rs))
  = Ok (("Date", Object (map (fun r => Some (strftime_Ymd (entry_date r))) rs))
          :: tl (DataFrame_of rs)).
Proof.
  intros Hrs Hall.
  apply read_csv_rows; trivial.
  - intros r Hr.
    destruct (loadable_inv r (forallb_loadable_In rs r Hall Hr))
      as [Hv [Hy [_ [_ [Hg Hn]]]]]. tauto.
  - apply infer_column_text; trivial. intros r Hr.
    now destruct (loadable_inv r (forallb_loadable_In rs r Hall Hr))
      as [_ [_ [_ [Ht _]]]].
Qed.

Lemma parse_dates (rs : RecordSet) :
  (forall r, In r rs ->
     valid_date (entry_date r) = true /\ 1000 <= year (entry_date r)
     /\ in_Timestamp_range (entry_date r) = true) ->
  mapM parse_timestamp (map (fun r => Some (strftime_Ymd (entry_date r))) rs)
  = Ok (map (fun r => Some (entry_date r)) rs).
Proof.
  induction rs as [|r rs IH]; [reflexivity|]. intros Hall.
  destruct (Hall r (or_introl eq_refl)) as [Hv [Hy Ht]].
  cbn [map mapM parse_timestamp].
  rewrite parse_Ymd_strftime, Ht by assumption.
  cbn [bind]. rewrite IH by (intros x Hx; apply Hall; now right). reflexivity.
Qed.

Lemma parse_logged_dates (rs : RecordSet) :
  forallb loadable rs = true ->
  mapM parse_timestamp (map (fun r => Some (strftime_Ymd (entry_date r))) rs)
  = Ok (map (fun r => Some (entry_date r)) rs).
Proof.
  intros Hall. apply parse_dates. intros r Hr.
  destruct (loadable_inv r (forallb_loadable_In rs r Hall Hr)) as [Hv [Hy [Ht _]]].
  tauto.
Qed.

(** Loading a table of logged rows gives the frame of the records. *)
Lemma load_data_table_of (w : World) (rs : RecordSet) :
  disk w = Some (table_of rs) ->
  rs <> [] -> forallb loadable rs = true ->
  load_data w = Ok (DataFrame_of rs).
Proof.
  intros Hd Hrs Hall. unfold load_data. rewrite Hd.
  rewrite read_csv_table_of by assumption.
  cbn [bind getitem String.eqb Ascii.eqb Bool.eqb to_datetime].
  rewrite parse_logged_dates by assumption. reflexivity.
Qed.

Lemma load_data_header_only (w : World) :
  disk w = Some (table_of []) ->
  exists df, load_data w = Ok df /\ to_records df = [].
Proof.
  intros Hd. unfold load_data. rewrite Hd. eexists. split; reflexivity.
Qed.

Lemma to_records_DataFrame_of (rs : RecordSet) :
  to_records (DataFrame_of rs) = map record_values rs.
Proof.
  unfold to_records. rewrite len_DataFrame_of.
  induction rs as [|r rs IH]; [reflexivity|].
  cbn [List.length seq map]. rewrite <- seq_shift, map_map. rewrite <- IH.
  f_equal.
Qed.

(* ================================================================== *)
(** * Logging, then loading *)

Lemma disk_append_row (w : World) (rs : RecordSet) (r : WorkoutRecord) :
  disk w = Some (table_of rs) ->
  disk (append_row w (csv_row_of r)) = Some (table_of (rs ++ [r])%list).
Proof.
  intros Hd. unfold append_row. rewrite Hd. unfold table_of. simpl.
  now rewrite map_app.
Qed.

(** C4, as the claim states it, fails: ["NA"] is a non-empty workout type,
    [log_workout] accepts it, and [read_csv] reads the field back as a missing
    value, not as the text that was logged. *)
Lemma NA_workout_type_is_read_back_missing :
  let w := mkWorld sample_clock (Some (table_of [yoga (mkdate 2026 11 2)])) [] in
  let logged := log_workout "NA" 30 150 28 "Female" 110 368 w in
  fst logged = true
  /\ (exists after,
        load_data (snd logged) = Ok after
        /\ last (to_records after) []
           = [Time (mkdate 2026 11 3); NaN; Int 30; Int 150; Int 28;
              Str "Female"; Int 110; Num 36.8])
  /\ record_values (mkRecord (mkdate 2026 11 3) "NA" 30 150 28 "Female" 110 368)
     = [Time (mkdate 2026 11 3); Str "NA"; Int 30; Int 150; Int 28;
        Str "Female"; Int 110; Num 36.8].
Proof.
  repeat split. eexists. split; reflexivity.
Qed.

(** C4 (amended): on a table that holds a header and logged rows, logging a
    workout whose type is not blank and then loading gives a record set
    whose last element equals the logged values, dated today, after the
    previously persisted rows, unchanged and in their order; provided every
    row, the new one and those before it, is [loadable]: its workout type
    and gender are fields that [read_csv] gives back as text
    ([reads_as_text]: printable ASCII text that starts with a letter and is
    no missing-value marker such as ["NA"] and no reserved word), its
    integers are in the range of [int64], its body temperature is in
    [tenths_range], and its date is one of [in_Timestamp_range]. *)
Theorem log_then_load_round_trip
    (rs : RecordSet) (w : World) (workout_type gender : string)
    (duration calories age heart_rate body_temp : Z) :
  let r := mkRecord (date_today w) workout_type duration calories age gender
             heart_rate body_temp in
  let logged := log_workout workout_type duration calories age gender
                  heart_rate body_temp w in
  disk w = Some (table_of rs) ->
  forallb loadable rs = true ->
  loadable r = true ->
  strip workout_type <> "" ->
  fst logged = true
  /\ exists before after,
       load_data w = Ok before
       /\ load_data (snd logged) = Ok after
       /\ to_records before = map record_values rs
       /\ to_records after = (to_records before ++ [record_values r])%list
       /\ last (to_records after) [] = record_values r.
Proof.
  intros r logged Hd Hall Hr Hwt. unfold logged.
  rewrite log_workout_accepted by assumption. cbn [fst snd].
  split; [reflexivity|].
  change (csv_row (date_today w) workout_type duration calories age gender
            heart_rate body_temp) with (csv_row_of r).
  pose proof (disk_append_row w rs r Hd) as Hd'.
  assert (Hall' : forallb loadable (rs ++ [r]) = true).
  { rewrite forallb_app, Hall. simpl. now rewrite Hr. }
  assert (Hne : (rs ++ [r])%list <> []) by (destruct rs; discriminate).
  pose proof (load_data_table_of _ _ Hd' Hne Hall') as Hafter.
  assert (Hbefore : exists before,
             load_data w = Ok before /\ to_records before = map record_values rs).
  { destruct rs as [|r0 rs0].
    - destruct (load_data_header_only w Hd) as [df [H1 H2]]. now exists df.
    - exists (DataFrame_of (r0 :: rs0)). split.
      + apply load_data_table_of; [assumption | discriminate | assumption].
      + apply to_records_DataFrame_of. }
  destruct Hbefore as [before [Hb1 Hb2]].
  exists before, (DataFrame_of (rs ++ [r])%list).
  rewrite to_records_DataFrame_of, map_app, Hb2. cbn [map].
  repeat split; trivial. apply last_last.
Qed.

Lemma log_then_load_round_trip_witness :
  let rs := [yoga (mkdate 2026 11 2)] in
  let w := mkWorld sample_clock (Some (table_of rs)) [] in
  let r := mkRecord (date_today w) "Cycling" 45 400 28 "Female" 130 371 in
  let logged := log_workout "Cycling" 45 400 28 "Female" 130 371 w in
  disk w = Some (table_of rs)
  /\ forallb loadable rs = true
  /\ loadable r = true
  /\ strip "Cycling" <> ""
  /\ fst logged = true
  /\ exists before after,
       load_data w = Ok before
       /\ load_data (snd logged) = Ok after
       /\ to_records before = map record_values rs
       /\ to_records after = (to_records before ++ [record_values r])%list
       /\ last (to_records after) [] = record_values r.
Proof.
  intros rs w r logged.
  assert (H1 : disk w = Some (table_of rs)) by reflexivity.
  assert (H2 : forallb loadable rs = true) by (vm_compute; reflexivity).
  assert (H3 : loadable r = true) by (vm_compute; reflexivity).
  assert (H4 : strip "Cycling" <> "") by (vm_compute; discriminate).
  split; [exact H1|]. split; [exact H2|]. split; [exact H3|]. split; [exact H4|].
  exact (log_then_load_round_trip rs w "Cycling" "Female" 45 400 28 130 371
           H1 H2 H3 H4).
Defined.

(** The scenario of an empty store: initialise, log one workout, load. *)
Example first_workout_scenario :
  let w0 := mkWorld sample_clock None [] in
  let w1 := initialize_file w0 in
  let logged := log_workout "Yoga/Stretching" 30 150 28 "Female" 110 368 w1 in
  disk w1 = Some [HEADER]
  /\ fst logged = true
  /\ exists df,
       load_data (snd logged) = Ok df
       /\ to_records df
          = [[Time (mkdate 2026 11 3); Str "Yoga/Stretching"; Int 30; Int 150;
              Int 28; Str "Female"; Int 110; Num 36.8]].
Proof.
  repeat split. eexists. split; reflexivity.
Qed.

(** Without [initialize_file] the first logged row becomes the header of
    the file, and loading fails on the missing ['Date'] column. *)
Example log_without_initialize :
  let w0 := mkWorld sample_clock None [] in
  let logged := log_workout "Yoga/Stretching" 30 150 28 "Female" 110 368 w0 in
  fst logged = true /\ load_data (snd logged) = Raise (KeyError "Date").
Proof. split; reflexivity. Qed.

(* ================================================================== *)
(** * More on the record store *)

Lemma truthy_strip (s : string) : truthy (strip s) = negb (all_chars isspace s).
Proof.
  destruct (all_chars isspace s) eqn:E; simpl.
  - apply strip_empty_iff in E. now rewrite E.
  - destruct (strip s) eqn:Es; [|reflexivity].
    apply strip_empty_iff in Es. congruence.
Qed.












(* ================================================================== *)
(** * Frames without data *)

(** X4: on a frame without rows no analysis function raises, whatever its
    columns (the four-column frame of a missing file included): no
    statistics, no advice, nothing on the dashboard; and below two rows there
    is no model, no analysis and no prediction. *)
Theorem no_data_no_error
    {F E : Type} `{Number F} `{Floating E} `{Mean E}
    (fit : list Q -> list Q -> LinearRegression F)
    (data : DataFrame) (efficiency : E) (w : World)
    (duration : Z) (gender : string) (heart_rate bmi : Z) :
  (empty data = true ->
   create_workout_stats (E := E) data = Ok None
   /\ get_personalized_recommendations data efficiency w = Ok []
   /\ dashboard (E := E) fit data w = Ok (None, None))
  /\ ((len data < 2)%nat ->
      train_model fit data = Ok None
      /\ analyze_fitness_data (E := E) fit data = Ok None
      /\ predictions_page fit data duration gender heart_rate bmi = Ok None).
Proof.
  split.
  - intros He.
    unfold dashboard, create_workout_stats, get_personalized_recommendations.
    rewrite He. repeat split.
  - intros Hl. apply Nat.ltb_lt in Hl.
    unfold predictions_page, train_model, analyze_fitness_data.
    rewrite Hl. repeat split.
Qed.

Lemma no_data_no_error_witness :
  let data := DataFrame_columns
                ["Date"; "Workout Type"; "Duration (mins)"; "Calories Burned"] in
  empty data = true
  /\ (len data < 2)%nat
  /\ (create_workout_stats (E := float64) data = Ok None
      /\ get_personalized_recommendations data (Finite 5) sample_world = Ok []
      /\ dashboard (E := float64) sample_fit data sample_world = Ok (None, None))
  /\ (train_model sample_fit data = Ok None
      /\ analyze_fitness_data (E := float64) sample_fit data = Ok None
      /\ predictions_page sample_fit data 15 "Male" 130 30 = Ok None).
Proof.
  intros data.
  destruct (no_data_no_error sample_fit data (Finite 5) sample_world 15 "Male" 130 30)
    as [H1 H2].
  assert (E : empty data = true) by reflexivity.
  assert (L : (len data < 2)%nat) by (unfold data; cbn; lia).
  split; [exact E|]. split; [exact L|]. split; [exact (H1 E) | exact (H2 L)].
Defined.

(* ================================================================== *)
(** * Loading what was logged *)

Lemma load_data_of_table (w : World) (rs : RecordSet) :
  disk w = Some (table_of rs) ->
  forallb loadable rs = true ->
  exists df,
    load_data w = Ok df
    /\ to_records df = map record_values rs
    /\ len df = List.length rs
    /\ column_names df = HEADER.
Proof.
  intros Hd Hall. destruct rs as [|r rs].
  - unfold load_data. rewrite Hd. eexists. repeat split.
  - exists (DataFrame_of (r :: rs)). split; [|split; [|split]].
    + apply load_data_table_of; [assumption | discriminate | assumption].
    + apply to_records_DataFrame_of.
    + apply len_DataFrame_of.
    + reflexivity.
Qed.

(** X5: from a file that holds the header and one row per record,
    [load_data] returns the eight columns of the header and the records,
    one row each, in the order of the file, with the values that were
    logged; provided every record is [loadable]: text fields that
    [read_csv] gives back as text, integers of [int64], a body temperature
    in [tenths_range], a date of [in_Timestamp_range]. *)
Theorem load_data_returns_logged_records (w : World) (rs : RecordSet) :
  disk w = Some (table_of rs) ->
  forallb loadable rs = true ->
  exists df,
    load_data w = Ok df
    /\ to_records df = map record_values rs
    /\ len df = List.length rs
    /\ column_names df = HEADER.
Proof. apply load_data_of_table. Qed.

Lemma load_data_returns_logged_records_witness :
  let rs := [yoga (mkdate 2026 11 1); cycling (mkdate 2026 11 2)] in
  let w := mkWorld sample_clock (Some (table_of rs)) [] in
  disk w = Some (table_of rs)
  /\ forallb loadable rs = true
  /\ exists df,
       load_data w = Ok df
       /\ to_records df = map record_values rs
       /\ len df = List.length rs
       /\ column_names df = HEADER.
Proof.
  intros rs w.
  assert (H1 : disk w = Some (table_of rs)) by reflexivity.
  assert (H2 : forallb loadable rs = true) by (vm_compute; reflexivity).
  split; [exact H1|]. split; [exact H2|].
  exact (load_data_returns_logged_records w rs H1 H2).
Defined.

(* ================================================================== *)
(** * Sessions of the program *)

Lemma widgets_allow_inv (f : LogForm) :
  widgets_allow f = true ->
  In (form_workout_type f) (map fst workout_suggestions)
  /\ In (form_gender f) ["Male"; "Female"]
  /\ 1 <= form_duration f /\ 1 <= form_calories f
  /\ 15 <= form_age f /\ 60 <= form_heart_rate f.
Proof.
  unfold widgets_allow. rewrite !andb_true_iff, !Z.leb_le, !existsb_exists.
  intros [[[[[[[[[[[[x [Hx Ex]] ?] ?] ?] ?] ?] ?] [y [Hy Ey]]] ?] ?] ?] ?].
  apply String.eqb_eq in Ex, Ey. subst x y. repeat split; assumption.
Qed.

Lemma suggested_type_ok (t : string) :
  In t (map fst workout_suggestions) ->
  reads_as_text t = true /\ all_chars isspace t = false
  /\ truthy t = true
  /\ exists slot, dict_get workout_suggestions t = Ok slot.
Proof.
  simpl. intros H.
  repeat (destruct H as [<- | H];
          [repeat split; try reflexivity; eexists; reflexivity|]).
  contradiction.
Qed.

Lemma gender_option_ok (g : string) :
  In g ["Male"; "Female"] -> reads_as_text g = true.
Proof.
  simpl. intros [<- | [<- | []]]; reflexivity.
Qed.

Lemma widgets_numbers_load (d : date) (f : LogForm) :
  widgets_allow f = true -> numbers_load (record_of_form d f) = true.
Proof.
  unfold widgets_allow. rewrite !andb_true_iff, !Z.leb_le.
  intros [[[[[[[[[[[_ ?] ?] ?] ?] ?] ?] _] ?] ?] ?] ?].
  unfold numbers_load, record_of_form, fits_int64, tenths_range, int64_min,
    int64_max.
  cbn [durationMinutes caloriesBurned entry_age heartRateBpm bodyTemperature].
  rewrite !andb_true_iff, !Z.leb_le, Z.ltb_lt. lia.
Qed.

Lemma clock_sane_loadable (t : Timestamp) (f : LogForm) :
  clock_sane t = true -> widgets_allow f = true ->
  loadable (record_of_form (ts_date t) f) = true
  /\ valid_record (record_of_form (ts_date t) f) = true.
Proof.
  intros Hc Hf.
  destruct (widgets_allow_inv f Hf) as [Ht [Hg [Hd [Hcal _]]]].
  destruct (suggested_type_ok _ Ht) as [Htxt [Hblank _]].
  split.
  - unfold loadable. rewrite (widgets_numbers_load (ts_date t) f Hf).
    unfold record_of_form. cbn [entry_date workoutType entry_gender].
    unfold clock_sane in Hc. rewrite Hc, Htxt, (gender_option_ok _ Hg).
    reflexivity.
  - unfold valid_record, record_invariant, record_of_form.
    cbn [workoutType durationMinutes caloriesBurned].
    rewrite truthy_strip, Hblank.
    assert (E1 : (0 <? form_duration f) = true) by (apply Z.ltb_lt; lia).
    assert (E2 : (0 <? form_calories f) = true) by (apply Z.ltb_lt; lia).
    now rewrite E1, E2.
Qed.

Lemma submit_workout_allowed (f : LogForm) (w : World) :
  widgets_allow f = true ->
  let w' := submit_workout (form_workout_type f) (form_duration f) (form_calories f)
              (form_age f) (form_gender f) (form_heart_rate f) (form_body_temp f) w in
  clock w' = clock w
  /\ disk w' = disk (append_row w (csv_row_of (record_of_form (date_today w) f))).
Proof.
  intros Hf.
  destruct (widgets_allow_inv f Hf) as [Ht [Hg [Hd [Hcal [Ha Hh]]]]].
  destruct (suggested_type_ok _ Ht) as [_ [Hblank [Htruthy _]]].
  unfold submit_workout, log_workout. rewrite truthy_strip, Hblank, Htruthy.
  assert (E1 : (0 <? form_duration f) = true) by (apply Z.ltb_lt; lia).
  assert (E2 : (0 <? form_calories f) = true) by (apply Z.ltb_lt; lia).
  assert (E3 : (0 <? form_age f) = true) by (apply Z.ltb_lt; lia).
  assert (E4 : (0 <? form_heart_rate f) = true) by (apply Z.ltb_lt; lia).
  rewrite E1, E2, E3, E4. cbn [andb negb].
  unfold append_row. destruct (disk w); split; reflexivity.
Qed.

Lemma run_log_workout_keeps_invariant (f : LogForm) (w : World) :
  session_invariant w -> widgets_allow f = true ->
  exists w', run_log_workout f w = Ok w' /\ session_invariant w'.
Proof.
  intros [Hc Hd] Hf.
  assert (Hinit : exists rs, disk (initialize_file w) = Some (table_of rs)
                             /\ forallb loadable rs = true
                             /\ forallb valid_record rs = true).
  { destruct Hd as [Hn | [rs [Hs [Hl Hv]]]].
    - exists []. split; [now apply initialize_file_creates | split; reflexivity].
    - exists rs. rewrite (initialize_file_keeps w _ Hs). auto. }
  destruct Hinit as [rs [Hs [Hl Hv]]].
  assert (Hclock : clock (initialize_file w) = clock w).
  { unfold initialize_file. destruct (disk w); reflexivity. }
  destruct (load_data_of_table _ rs Hs Hl) as [df [Hload _]].
  destruct (widgets_allow_inv f Hf) as [Ht _].
  destruct (suggested_type_ok _ Ht) as [_ [_ [_ [slot Hslot]]]].
  unfold run_log_workout. rewrite Hload. cbn [bind].
  unfold log_workout_page. rewrite Hslot. cbn [bind].
  set (w1 := show (initialize_file w) (st_info ("Suggested time: " ++ slot))).
  assert (Hs1 : disk w1 = Some (table_of rs)) by exact Hs.
  assert (Hc1 : clock w1 = clock w) by exact Hclock.
  destruct (form_submitted f).
  - eexists. split; [reflexivity|].
    destruct (submit_workout_allowed f w1 Hf) as [Ec Ed].
    unfold session_invariant. rewrite Ec, Hc1. split; [assumption|].
    right. exists (rs ++ [record_of_form (date_today w1) f])%list.
    rewrite Ed. split; [now apply disk_append_row|].
    unfold date_today. rewrite Hc1.
    destruct (clock_sane_loadable (clock w) f Hc Hf) as [Hlr Hvr].
    rewrite !forallb_app, Hl, Hv. cbn [forallb]. now rewrite Hlr, Hvr.
  - exists w1. split; [reflexivity|].
    unfold session_invariant. rewrite Hc1. split; [assumption|].
    right. exists rs. auto.
Qed.

Lemma session_keeps_invariant (w0 w : World) :
  session_invariant w0 -> session w0 w -> session_invariant w.
Proof.
  intros H0. induction 1 as [|f w1 w2 _ IH Hf Hrun|t w1 _ IH Ht].
  - assumption.
  - destruct (run_log_workout_keeps_invariant f w1 IH Hf) as [w' [E Hw']].
    rewrite E in Hrun. now injection Hrun as <-.
  - destruct IH as [_ Hd]. split; [exact Ht | exact Hd].
Qed.

(** X6: in every session that starts without the file, with runs of the
    "Log Workout" page on what its widgets allow and a clock that shows
    real dates, the file is absent or holds the header and rows that
    satisfy the invariants of a record (type not blank, positive duration
    and calories); [load_data] raises nothing and returns these rows in
    order; and the next run raises nothing either. *)
Theorem session_table_stays_loadable (w0 w : World) :
  disk w0 = None -> clock_sane (clock w0) = true -> session w0 w ->
  (disk w = None
   \/ exists rs df,
        disk w = Some (table_of rs)
        /\ forallb valid_record rs = true
        /\ load_data w = Ok df
        /\ to_records df = map record_values rs)
  /\ (forall f, widgets_allow f = true -> exists w', run_log_workout f w = Ok w').
Proof.
  intros Hd Hc Hs.
  assert (Hinv : session_invariant w).
  { apply (session_keeps_invariant w0); [|assumption]. split; auto. }
  split.
  - destruct Hinv as [_ [Hn | [rs [Hrs [Hl Hv]]]]]; [now left | right].
    destruct (load_data_of_table w rs Hrs Hl) as [df [H1 [H2 _]]].
    exists rs, df. auto.
  - intros f Hf.
    destruct (run_log_workout_keeps_invariant f w Hinv Hf) as [w' [E _]].
    now exists w'.
Qed.

Lemma session_table_stays_loadable_witness :
  let w0 := mkWorld sample_clock None [] in
  let w := world_of (run_log_workout sample_form w0) w0 in
  disk w0 = None
  /\ clock_sane (clock w0) = true
  /\ session w0 w
  /\ (disk w = None
      \/ exists rs df,
           disk w = Some (table_of rs)
           /\ forallb valid_record rs = true
           /\ load_data w = Ok df
           /\ to_records df = map record_values rs)
  /\ (forall f, widgets_allow f = true -> exists w', run_log_workout f w = Ok w').
Proof.
  intros w0 w.
  assert (H1 : disk w0 = None) by reflexivity.
  assert (H2 : clock_sane (clock w0) = true) by (vm_compute; reflexivity).
  assert (H3 : session w0 w).
  { apply (session_run w0 sample_form w0 w).
    - apply session_start.
    - vm_compute. reflexivity.
    - reflexivity. }
  split; [exact H1|]. split; [exact H2|]. split; [exact H3|].
  exact (session_table_stays_loadable w0 w H1 H2 H3).
Defined.

(* ================================================================== *)
(** * Grouping keeps every record once *)

Lemma Zsum_map_plus {A} (f g : A -> Z) (l : list A) :
  Zsum (map (fun a => f a + g a) l) = Zsum (map f l) + Zsum (map g l).
Proof. induction l as [|a l IH]; simpl; [reflexivity|]. rewrite IH. ring. Qed.

Lemma Zsum_map_zero {A} (f : A -> Z) (l : list A) :
  (forall a, In a l -> f a = 0) -> Zsum (map f l) = 0.
Proof.
  induction l as [|a l IH]; simpl; intros H; [reflexivity|].
  rewrite (H a) by now left. rewrite IH by (intros; apply H; now right).
  reflexivity.
Qed.

Lemma Zsum_indicator (x v : Z) (keys : list Z) :
  NoDup keys -> In x keys ->
  Zsum (map (fun k => if x =? k then v else 0) keys) = v.
Proof.
  induction 1 as [|k keys Hk Hn IH]; simpl; [tauto|].
  intros [<- | Hx].
  - rewrite Z.eqb_refl. rewrite Zsum_map_zero; [ring|].
    intros k' Hk'. destruct (Z.eqb_spec k k') as [<-|_]; [contradiction | reflexivity].
  - destruct (Z.eqb_spec x k) as [->|_]; [contradiction|].
    rewrite IH by assumption. ring.
Qed.



Section Partition.
Context {A : Type} (key : A -> Z).

(** Summing a quantity group by group gives its sum over the whole list,
    when the keys are distinct and every element has its key among them. *)
Lemma Zsum_by_key (g : A -> Z) (keys : list Z) (l : list A) :
  NoDup keys -> (forall a, In a l -> In (key a) keys) ->
  Zsum (map (fun k => Zsum (map g (filter (fun a => key a =? k) l))) keys)
  = Zsum (map g l).
Proof.
  intros Hn. induction l as [|a l IH]; intros Hin.
  - simpl. apply Zsum_map_zero. reflexivity.
  - cbn [map Zsum fold_right filter].
    rewrite (map_ext _
               (fun k => (if key a =? k then g a else 0)
                         + Zsum (map g (filter (fun a => key a =? k) l)))).
    + rewrite Zsum_map_plus, Zsum_indicator, IH; trivial.
      * intros b Hb. apply Hin. now right.
      * apply Hin. now left.
    + intros k. destruct (key a =? k); reflexivity.
Qed.

End Partition.

Lemma strictly_sorted (l : list Z) :
  StronglySorted (fun x y => (x <=? y) = true) l -> NoDup l ->
  StronglySorted Z.lt l.
Proof.
  induction 1 as [|a l Hs IH Ha]; intros Hn; constructor.
  - apply IH. now inversion Hn.
  - inversion Hn as [|? ? Hnotin _]; subst.
    rewrite Forall_forall in *. intros x Hx.
    specialize (Ha x Hx). apply Z.leb_le in Ha.
    assert (a <> x) by (intros ->; contradiction). lia.
Qed.

Lemma week_keys_spec (rs : RecordSet) :
  let keys := sort Z.leb (unique Z.eqb (map week_of rs)) in
  NoDup keys
  /\ StronglySorted Z.lt keys
  /\ (forall k, In k keys <-> exists r, In r rs /\ week_of r = k).
Proof.
  intros keys.
  assert (Hn : NoDup keys) by apply NoDup_sort, (NoDup_unique Z.eqb Z.eqb_eq).
  split; [exact Hn|]. split.
  - apply strictly_sorted; [|exact Hn].
    apply (sort_sorted Z.leb Z_leb_total Z_leb_trans).
  - intros k. unfold keys.
    rewrite In_sort, (In_unique Z.eqb Z.eqb_eq), in_map_iff.
    split; intros [r [H1 H2]]; exists r; auto.
Qed.



(* ================================================================== *)
(** * More on the recommendations *)

(** X8: the frequency advice is given exactly when fewer than three
    records are dated no earlier than seven days before the instant the
    clock shows.  The window has no upper end: a record dated after that
    instant counts as recent.  With fewer than three records in all, the
    advice is always given. *)
Theorem frequency_advice_window {E} `{Floating E}
    (rs : RecordSet) (efficiency : E) (w : World) :
  rs <> [] ->
  exists advice,
    get_personalized_recommendations (DataFrame_of rs) efficiency w = Ok advice
    /\ (In ADVICE_FREQUENCY advice <-> (List.length (recent (clock w) rs) < 3)%nat)
    /\ (forall r, In r rs ->
          instant (clock w) <= instant (midnight (entry_date r)) ->
          In r (recent (clock w) rs))
    /\ ((List.length rs < 3)%nat -> In ADVICE_FREQUENCY advice).
Proof.
  intros Hrs. rewrite recommendations_DataFrame_of by assumption. cbv zeta.
  set (quotient := fdiv _ _).
  eexists. split; [reflexivity|].
  assert (Hiff : In ADVICE_FREQUENCY
                   ((if (List.length (recent (clock w) rs) <? 3)%nat
                     then [ADVICE_FREQUENCY] else [])
                    ++ (if flt efficiency quotient
                        then [ADVICE_EFFICIENCY] else []))%list
                 <-> (List.length (recent (clock w) rs) < 3)%nat).
  { rewrite <- Nat.ltb_lt.
    destruct (_ <? 3)%nat; destruct (flt efficiency _); simpl; split; intros H';
      try reflexivity; try discriminate; intuition (try discriminate). }
  split; [exact Hiff|]. split.
  - intros r Hr Hnow. unfold recent. apply filter_In. split; [assumption|].
    apply Z.leb_le. unfold NS_PER_DAY. lia.
  - intros Hlen. apply Hiff.
    pose proof (filter_length_le
                  (fun r => instant (clock w) - 7 * NS_PER_DAY
                            <=? instant (midnight (entry_date r))) rs) as Hle.
    unfold recent. lia.
Qed.

Lemma frequency_advice_window_witness :
  three_sessions <> []
  /\ exists advice,
       get_personalized_recommendations (DataFrame_of three_sessions) (Finite 4)
         sample_world = Ok advice
       /\ (In ADVICE_FREQUENCY advice
           <-> (List.length (recent (clock sample_world) three_sessions) < 3)%nat)
       /\ (forall r, In r three_sessions ->
             instant (clock sample_world) <= instant (midnight (entry_date r)) ->
             In r (recent (clock sample_world) three_sessions))
       /\ ((List.length three_sessions < 3)%nat -> In ADVICE_FREQUENCY advice).
Proof.
  split; [discriminate|].
  apply (frequency_advice_window three_sessions (Finite 4) sample_world).
  discriminate.
Defined.

(** X9: whatever the frame, the efficiency and the clock, when
    [get_personalized_recommendations] returns, it returns at most the two
    advices, each at most once, the frequency advice first. *)
Theorem recommendations_shape {E} `{Floating E}
    (data : DataFrame) (efficiency : E) (w : World) (advice : list string) :
  get_personalized_recommendations data efficiency w = Ok advice ->
  advice = []
  \/ advice = [ADVICE_FREQUENCY]
  \/ advice = [ADVICE_EFFICIENCY]
  \/ advice = [ADVICE_FREQUENCY; ADVICE_EFFICIENCY].
Proof.
  unfold get_personalized_recommendations.
  destruct (empty data); [intros [= <-]; now left|].
  destruct (getitem data "Date") as [dates|]; cbn [bind]; [|discriminate].
  destruct (ge_instant dates _) as [mask|]; cbn [bind]; [|discriminate].
  destruct (getitem data "Calories Burned") as [c|]; cbn [bind]; [|discriminate].
  destruct (Series_mean c) as [cm|]; cbn [bind]; [|discriminate].
  destruct (getitem data "Duration (mins)") as [d|]; cbn [bind]; [|discriminate].
  destruct (Series_mean d) as [dm|]; cbn [bind]; [|discriminate].
  destruct (_ <? 3)%nat; destruct (flt efficiency _); intros [= <-]; simpl; auto.
Qed.

Lemma recommendations_shape_witness :
  get_personalized_recommendations (DataFrame_of three_sessions) (Finite 4)
    sample_world = Ok [ADVICE_EFFICIENCY]
  /\ ([ADVICE_EFFICIENCY] = []
      \/ [ADVICE_EFFICIENCY] = [ADVICE_FREQUENCY]
      \/ [ADVICE_EFFICIENCY] = [ADVICE_EFFICIENCY]
      \/ [ADVICE_EFFICIENCY] = [ADVICE_FREQUENCY; ADVICE_EFFICIENCY]).
Proof.
  assert (H : get_personalized_recommendations (DataFrame_of three_sessions)
                (Finite 4) sample_world = Ok [ADVICE_EFFICIENCY])
    by (vm_compute; reflexivity).
  split; [exact H|].
  exact (recommendations_shape (DataFrame_of three_sessions) (Finite 4)
           sample_world [ADVICE_EFFICIENCY] H).
Defined.

(* ================================================================== *)
(** * The dashboard *)

Lemma combine_map {A B C} (f : A -> B) (g : A -> C) (l : list A) :
  combine (map f l) (map g l) = map (fun a => (f a, g a)) l.
Proof. induction l; simpl; congruence. Qed.

Lemma week_keys_nonempty (rs : RecordSet) :
  rs <> [] -> sort Z.leb (unique Z.eqb (map week_of rs)) <> [].
Proof.
  intros Hrs. destruct rs as [|r rs]; [congruence|].
  destruct (week_keys_spec (r :: rs)) as [_ [_ Hk]].
  intros E. cbv zeta in Hk. rewrite E in Hk.
  apply (Hk (week_of r)). exists r. split; [now left | reflexivity].
Qed.

Lemma div_series_int_columns {E} `{Floating E} (rs : RecordSet) :
  div_series (int_column caloriesBurned rs) (int_column durationMinutes rs)
  = Ok (map quotient rs).
Proof.
  unfold div_series, int_column. cbn [int64_values bind].
  rewrite combine_map, map_map. reflexivity.
Qed.

(** From two records on, [analyze_fitness_data] returns: its efficiency is
    the mean of the quotients of the records. *)
Lemma analyze_fitness_data_DataFrame_of {F E} `{Floating E} `{Mean E}
    (fit : list Q -> list Q -> LinearRegression F) (rs : RecordSet) :
  (2 <= List.length rs)%nat ->
  exists model X,
    analyze_fitness_data fit (DataFrame_of rs)
    = Ok (Some (model, X, fmean (map quotient rs))).
Proof.
  intros Hlen.
  assert (Hrs : rs <> []) by (intros ->; simpl in Hlen; lia).
  unfold analyze_fitness_data. rewrite len_DataFrame_of.
  assert (El : (List.length rs <? 2)%nat = false) by (apply Nat.ltb_ge; lia).
  rewrite El, weekly_stats_DataFrame_of. cbn [bind].
  pose proof (week_keys_nonempty rs Hrs) as Hk.
  destruct (sort Z.leb (unique Z.eqb (map week_of rs))) as [|k ks] eqn:Ek;
    [congruence|].
  cbn [map bind].
  change (getitem (DataFrame_of rs) "Calories Burned")
    with (Ok (int_column caloriesBurned rs)).
  change (getitem (DataFrame_of rs) "Duration (mins)")
    with (Ok (int_column durationMinutes rs)).
  cbn [bind]. rewrite div_series_int_columns. cbn [bind].
  do 2 eexists. reflexivity.
Qed.

Lemma create_workout_stats_defined {E} `{Floating E} (rs : RecordSet) :
  rs <> [] ->
  exists stats, create_workout_stats (E := E) (DataFrame_of rs) = Ok (Some stats).
Proof.
  intros Hrs.
  destruct (create_workout_stats_DataFrame_of rs Hrs) as [m [Hm _]].
  eexists. exact Hm.
Qed.

(** The ['Week'] column does not change the advice. *)
Lemma recommendations_with_week {E} `{Floating E}
    (rs : RecordSet) (wk : Series) (efficiency : E) (w : World) :
  get_personalized_recommendations (setitem (DataFrame_of rs) "Week" wk) efficiency w
  = get_personalized_recommendations (DataFrame_of rs) efficiency w.
Proof. reflexivity. Qed.

Lemma with_week_DataFrame_of (rs : RecordSet) :
  exists wk, with_week (DataFrame_of rs) = Ok (setitem (DataFrame_of rs) "Week" wk).
Proof. eexists. reflexivity. Qed.

(** What the dashboard computes on two records or more. *)
Lemma dashboard_DataFrame_of {F E} `{Floating E} `{Mean E}
    (fit : list Q -> list Q -> LinearRegression F) (rs : RecordSet) (w : World) :
  (2 <= List.length rs)%nat ->
  let efficiency := fmean (map quotient rs) in
  exists stats advice,
    dashboard fit (DataFrame_of rs) w = Ok (Some stats, Some (advice, efficiency))
    /\ get_personalized_recommendations (DataFrame_of rs) efficiency w = Ok advice.
Proof.
  intros Hlen efficiency.
  assert (Hrs : rs <> []) by (intros ->; simpl in Hlen; lia).
  destruct (create_workout_stats_defined (E := E) rs Hrs) as [stats Hstats].
  destruct (analyze_fitness_data_DataFrame_of fit rs Hlen) as [model [X Han]].
  destruct (with_week_DataFrame_of rs) as [wk Hwk].
  pose proof (recommendations_DataFrame_of rs efficiency w Hrs) as Hadv.
  cbv zeta in Hadv.
  exists stats. eexists.
  unfold dashboard. rewrite Hstats. cbn [bind].
  destruct (empty (DataFrame_of rs)) eqn:Ee.
  { apply empty_DataFrame_of in Ee. congruence. }
  cbn [negb]. rewrite Han. cbn [bind]. rewrite Hwk. cbn [bind].
  fold efficiency. rewrite recommendations_with_week, Hadv. cbn [bind].
  split; reflexivity.
Qed.

(** X11: what the dashboard computes from a record set, in every
    arithmetic and with every way of fitting the model.  With a single
    record there are statistics but no insights.  With two or more nothing
    is raised; the efficiency shown is the mean of the quotients
    calories/duration of the records, the advice is what
    [get_personalized_recommendations] gives for that efficiency, and the
    frequency advice appears exactly when fewer than three records are
    recent. *)
Theorem dashboard_insights {F E} `{Floating E} `{Mean E}
    (fit : list Q -> list Q -> LinearRegression F) (rs : RecordSet) (w : World) :
  (List.length rs = 1%nat ->
   exists stats, dashboard (E := E) fit (DataFrame_of rs) w = Ok (Some stats, None))
  /\ ((2 <= List.length rs)%nat ->
      let efficiency : E := fmean (map quotient rs) in
      exists stats advice,
        dashboard fit (DataFrame_of rs) w
        = Ok (Some stats, Some (advice, efficiency))
        /\ get_personalized_recommendations (DataFrame_of rs) efficiency w
           = Ok advice
        /\ (In ADVICE_FREQUENCY advice
            <-> (List.length (recent (clock w) rs) < 3)%nat)).
Proof.
  split.
  - intros Hlen.
    assert (Hrs : rs <> []) by (intros ->; discriminate).
    destruct (create_workout_stats_defined (E := E) rs Hrs) as [stats Hstats].
    exists stats. unfold dashboard. rewrite Hstats. cbn [bind].
    destruct (empty (DataFrame_of rs)) eqn:Ee.
    { apply empty_DataFrame_of in Ee. congruence. }
    cbn [negb]. unfold analyze_fitness_data.
    rewrite len_DataFrame_of, Hlen. reflexivity.
  - intros Hlen efficiency.
    assert (Hrs : rs <> []) by (intros ->; simpl in Hlen; lia).
    destruct (dashboard_DataFrame_of fit rs w Hlen) as [stats [advice [Hd Ha]]].
    fold efficiency in Hd, Ha.
    exists stats, advice. split; [exact Hd|]. split; [exact Ha|].
    rewrite recommendations_DataFrame_of in Ha by assumption. cbv zeta in Ha.
    injection Ha as <-. rewrite <- Nat.ltb_lt.
    destruct (_ <? 3)%nat; destruct (flt efficiency _); simpl; split; intros H';
      try reflexivity; try discriminate; intuition (try discriminate).
Qed.

Lemma dashboard_insights_witness :
  let rs := [mkRecord (mkdate 2026 11 2) "Yoga" 10 100 28 "Female" 110 368;
             mkRecord (mkdate 2026 11 3) "Cycling" 20 180 28 "Female" 130 371] in
  let efficiency : float64 := fmean (map quotient rs) in
  (2 <= List.length rs)%nat
  /\ exists stats advice,
       dashboard sample_fit (DataFrame_of rs) sample_world
       = Ok (Some stats, Some (advice, efficiency))
       /\ get_personalized_recommendations (DataFrame_of rs) efficiency
            sample_world = Ok advice
       /\ (In ADVICE_FREQUENCY advice
           <-> (List.length (recent (clock sample_world) rs) < 3)%nat).
Proof.
  intros rs efficiency.
  assert (H2 : (2 <= List.length rs)%nat) by (simpl; lia).
  split; [exact H2|].
  exact (proj2 (dashboard_insights sample_fit rs sample_world) H2).
Defined.

(** * A record of duration 0 *)

Lemma fmean_PosInf (l : list float64) :
  In PosInf l -> ~ In NegInf l -> fmean l = PosInf.
Proof.
  intros Hp Hn. cbn [fmean exact_Mean]. unfold exact_mean. cbv zeta beta.
  assert (E1 : existsb (fun x => match x, PosInf with
                                 | PosInf, PosInf | NegInf, NegInf => true
                                 | _, _ => false
                                 end) l = true).
  { apply existsb_exists. exists PosInf. split; [assumption | reflexivity]. }
  assert (E2 : existsb (fun x => match x, NegInf with
                                 | PosInf, PosInf | NegInf, NegInf => true
                                 | _, _ => false
                                 end) l = false).
  { apply not_true_is_false. intros H. apply existsb_exists in H.
    destruct H as [x [Hx Ex]]. destruct x; try discriminate. contradiction. }
  rewrite E1, E2. reflexivity.
Qed.

Lemma quotient_by_zero_pos (r : WorkoutRecord) :
  0 < caloriesBurned r -> durationMinutes r = 0 -> quotient r = PosInf.
Proof.
  intros Hc Hd. unfold quotient. rewrite Hd.
  cbn [fdiv of_int64 exact]. unfold exact_div. cbn [Qeq_bool inject_Z].
  change (Qeq_bool (0 # 1) 0) with true. cbv iota.
  assert (E : (inject_Z (caloriesBurned r) ?= 0)%Q = Gt).
  { unfold Qcompare. simpl. rewrite Z.mul_1_r. now apply Z.compare_gt_iff. }
  now rewrite E.
Qed.

Lemma quotient_pos_not_NegInf (r : WorkoutRecord) :
  0 < caloriesBurned r -> quotient r <> NegInf.
Proof.
  intros Hc. unfold quotient. cbn [fdiv of_int64 exact]. unfold exact_div.
  destruct (Qeq_bool (inject_Z (durationMinutes r)) 0); [|discriminate].
  assert (E : (inject_Z (caloriesBurned r) ?= 0)%Q = Gt).
  { unfold Qcompare. simpl. rewrite Z.mul_1_r. now apply Z.compare_gt_iff. }
  rewrite E. discriminate.
Qed.

(** X12: a record of duration 0 raises nothing.  With two records or more,
    all of positive calories and one of duration 0, the dashboard computes
    an infinite efficiency score, and the efficiency advice is then never
    given; whatever model is fitted. *)
Theorem zero_duration_makes_efficiency_infinite {F}
    (fit : list Q -> list Q -> LinearRegression F) (rs : RecordSet) (w : World) :
  (2 <= List.length rs)%nat ->
  (forall r, In r rs -> 0 < caloriesBurned r) ->
  (exists r, In r rs /\ durationMinutes r = 0) ->
  exists stats advice,
    dashboard fit (DataFrame_of rs) w = Ok (Some stats, Some (advice, PosInf))
    /\ ~ In ADVICE_EFFICIENCY advice.
Proof.
  intros Hlen Hc [r0 [Hr0 Hd0]].
  assert (Hrs : rs <> []) by (intros ->; simpl in Hlen; lia).
  destruct (dashboard_DataFrame_of (E := float64) fit rs w Hlen)
    as [stats [advice [Hd Ha]]].
  assert (Einf : fmean (map (quotient (E := float64)) rs) = PosInf).
  { apply fmean_PosInf.
    - apply in_map_iff. exists r0. split; [|assumption].
      apply quotient_by_zero_pos; [now apply Hc | assumption].
    - intros H. apply in_map_iff in H. destruct H as [r [H Hr]].
      revert H. apply quotient_pos_not_NegInf. now apply Hc. }
  rewrite Einf in Hd, Ha.
  exists stats, advice. split; [exact Hd|].
  rewrite recommendations_DataFrame_of in Ha by assumption. cbv zeta in Ha.
  assert (Ef : forall x, flt PosInf x = false) by (now intros []).
  rewrite Ef, app_nil_r in Ha. injection Ha as <-.
  destruct (_ <? 3)%nat; simpl; [|tauto].
  intros [H | []]. now apply advice_texts_differ.
Qed.

Lemma zero_duration_makes_efficiency_infinite_witness :
  let rs := [mkRecord (mkdate 2026 11 2) "Yoga" 0 100 28 "Female" 110 368;
             mkRecord (mkdate 2026 11 3) "Cycling" 20 180 28 "Female" 130 371] in
  (2 <= List.length rs)%nat
  /\ (forall r, In r rs -> 0 < caloriesBurned r)
  /\ (exists r, In r rs /\ durationMinutes r = 0)
  /\ exists stats advice,
       dashboard sample_fit (DataFrame_of rs) sample_world
       = Ok (Some stats, Some (advice, PosInf))
       /\ ~ In ADVICE_EFFICIENCY advice.
Proof.
  intros rs.
  assert (H1 : (2 <= List.length rs)%nat) by (simpl; lia).
  assert (H2 : forall r, In r rs -> 0 < caloriesBurned r).
  { intros r [<- | [<- | []]]; simpl; lia. }
  assert (H3 : exists r, In r rs /\ durationMinutes r = 0).
  { eexists. split; [left; reflexivity | reflexivity]. }
  split; [exact H1|]. split; [exact H2|]. split; [exact H3|].
  exact (zero_duration_makes_efficiency_infinite sample_fit rs sample_world
           H1 H2 H3).
Defined.

(* ================================================================== *)
(** * The weekly progress of the history page *)

(** The week of a date ends on the Sunday on or after it. *)
Lemma week_ending_spec (d : date) :
  toordinal d <= week_ending d <= toordinal d + 6
  /\ week_ending d mod 7 = 0.
Proof. unfold week_ending. generalize (toordinal d). intros o. div_lia. Qed.

Lemma Zmin_list_In (x : Z) (l : list Z) : In (Zmin_list x l) (x :: l).
Proof.
  unfold Zmin_list. induction l as [|a l IH]; simpl; [now left|].
  destruct (Z.min_spec a (fold_right Z.min x l)) as [[_ ->] | [_ ->]].
  - right. now left.
  - simpl in IH. tauto.
Qed.

Lemma Zmin_list_le (x : Z) (l : list Z) (y : Z) :
  In y (x :: l) -> Zmin_list x l <= y.
Proof.
  unfold Zmin_list. induction l as [|a l IH]; simpl.
  - intros [-> | []]. lia.
  - intros [-> | [-> | H]].
    + specialize (IH (or_introl eq_refl)). lia.
    + lia.
    + specialize (IH (or_intror H)). lia.
Qed.

Lemma Zmax_list_In (x : Z) (l : list Z) : In (Zmax_list x l) (x :: l).
Proof.
  unfold Zmax_list. induction l as [|a l IH]; simpl; [now left|].
  destruct (Z.max_spec a (fold_right Z.max x l)) as [[_ ->] | [_ ->]].
  - simpl in IH. tauto.
  - right. now left.
Qed.

Lemma Zmax_list_ge (x : Z) (l : list Z) (y : Z) :
  In y (x :: l) -> y <= Zmax_list x l.
Proof.
  unfold Zmax_list. induction l as [|a l IH]; simpl.
  - intros [-> | []]. lia.
  - intros [-> | [-> | H]].
    + specialize (IH (or_introl eq_refl)). lia.
    + lia.
    + specialize (IH (or_intror H)). lia.
Qed.

Lemma select_week_ending {B} (b : Z) (g : WorkoutRecord -> B) (rs : RecordSet) :
  select b (map (fun r => Some (week_ending (entry_date r))) rs) (map g rs)
  = map g (filter (in_week_ending b) rs).
Proof.
  unfold select, in_week_ending. induction rs as [|r rs IH]; simpl; [reflexivity|].
  destruct (week_ending (entry_date r) =? b); simpl; now rewrite IH.
Qed.

(** The weekly progress of the frame of a record set whose sums stay within
    [int64]: one bin per week from the earliest to the latest. *)
Lemma weekly_progress_DataFrame_of (r : WorkoutRecord) (rs : RecordSet) :
  abs_total caloriesBurned (r :: rs) <= int64_max ->
  abs_total durationMinutes (r :: rs) <= int64_max ->
  let ends := map (fun r => week_ending (entry_date r)) rs in
  let first := Zmin_list (week_ending (entry_date r)) ends in
  let last := Zmax_list (week_ending (entry_date r)) ends in
  weekly_progress (DataFrame_of (r :: rs))
  = Ok (map (progress_bucket (r :: rs))
          (map (fun i => first + 7 * Z.of_nat i)
             (seq 0 (S (Z.to_nat ((last - first) / 7)))))).
Proof.
  intros Hcal Hdur ends first last. unfold weekly_progress.
  change (getitem (DataFrame_of (r :: rs)) "Date")
    with (Ok (Datetime64 (map (fun r => Some (entry_date r)) (r :: rs)))).
  change (getitem (DataFrame_of (r :: rs)) "Calories Burned")
    with (Ok (int_column caloriesBurned (r :: rs))).
  change (getitem (DataFrame_of (r :: rs)) "Duration (mins)")
    with (Ok (int_column durationMinutes (r :: rs))).
  cbn [bind int_column int64_values].
  assert (E : map (option_map week_ending) (map (fun r => Some (entry_date r)) (r :: rs))
              = map (fun r => Some (week_ending (entry_date r))) (r :: rs))
    by now rewrite map_map.
  rewrite E. clear E.
  rewrite (dropna_map_Some (fun r => week_ending (entry_date r))).
  change (map (fun r => week_ending (entry_date r)) (r :: rs))
    with (week_ending (entry_date r) :: ends).
  cbv iota beta. fold first last.
  f_equal. rewrite map_map. apply map_ext. intros i.
  unfold progress_bucket. cbv zeta.
  rewrite !select_week_ending.
  change (Zsum (map caloriesBurned (filter (in_week_ending (first + 7 * Z.of_nat i))
                                      (r :: rs))))
    with (total caloriesBurned (filter (in_week_ending (first + 7 * Z.of_nat i))
                                  (r :: rs))).
  change (Zsum (map durationMinutes (filter (in_week_ending (first + 7 * Z.of_nat i))
                                       (r :: rs))))
    with (total durationMinutes (filter (in_week_ending (first + 7 * Z.of_nat i))
                                   (r :: rs))).
  now rewrite !wrap_total_filter by assumption.
Qed.

Lemma NoDup_map_injective {A B} (f : A -> B) (l : list A) :
  (forall x y, f x = f y -> x = y) -> NoDup l -> NoDup (map f l).
Proof.
  intros Hf. induction 1 as [|a l Ha Hl IH]; simpl; constructor; [|exact IH].
  intros H. apply in_map_iff in H. destruct H as [x [E Hx]].
  apply Hf in E. now subst.
Qed.

Lemma NoDup_week_bins (first : Z) (n : nat) :
  NoDup (map (fun i => first + 7 * Z.of_nat i) (seq 0 n)).
Proof.
  apply NoDup_map_injective; [|apply seq_NoDup].
  intros i j H. lia.
Qed.

Lemma In_week_bins (first b : Z) (n : nat) :
  first <= b -> (b - first) mod 7 = 0 -> b <= first + 7 * Z.of_nat n ->
  In b (map (fun i => first + 7 * Z.of_nat i) (seq 0 (S n))).
Proof.
  intros H1 H2 H3. apply in_map_iff. exists (Z.to_nat ((b - first) / 7)). split.
  - rewrite Z2Nat.id by div_lia. div_lia.
  - apply in_seq. split; [lia|].
    assert ((b - first) / 7 <= Z.of_nat n) by div_lia.
    assert (0 <= (b - first) / 7) by div_lia. lia.
Qed.

(** X14: for a record set whose calories and durations add up within
    [int64], the weekly progress shown on the history page has one row per
    calendar week (Monday to Sunday) from the week of the earliest record to
    the week of the latest one, without a gap; a row holds the sums of the
    calories and durations of the records of its week (0 for a week without
    records), and the rows add up to the totals of the record set. *)
Theorem weekly_progress_bins (rs : RecordSet) :
  rs <> [] ->
  abs_total caloriesBurned rs <= int64_max ->
  abs_total durationMinutes rs <= int64_max ->
  exists rows first last,
    weekly_progress (DataFrame_of rs) = Ok rows
    /\ (exists r, In r rs /\ week_ending (entry_date r) = first)
    /\ (exists r, In r rs /\ week_ending (entry_date r) = last)
    /\ (forall r, In r rs -> first <= week_ending (entry_date r) <= last)
    /\ map week_end rows
       = map (fun i => first + 7 * Z.of_nat i) (seq 0 (List.length rows))
    /\ first + 7 * (Z.of_nat (List.length rows) - 1) = last
    /\ (forall row, In row rows -> row = progress_bucket rs (week_end row))
    /\ Zsum (map progress_calories rows) = total caloriesBurned rs
    /\ Zsum (map progress_duration rows) = total durationMinutes rs.
Proof.
  intros Hrs Hcal Hdur. destruct rs as [|r0 rs']; [congruence|]. clear Hrs.
  set (rs := r0 :: rs').
  set (wk := fun r => week_ending (entry_date r)).
  set (first := Zmin_list (wk r0) (map wk rs')).
  set (last := Zmax_list (wk r0) (map wk rs')).
  assert (Hfirst : exists r, In r rs /\ wk r = first).
  { pose proof (Zmin_list_In (wk r0) (map wk rs')) as H.
    change (wk r0 :: map wk rs') with (map wk rs) in H.
    apply in_map_iff in H. destruct H as [r [E Hr]]. now exists r. }
  assert (Hlast : exists r, In r rs /\ wk r = last).
  { pose proof (Zmax_list_In (wk r0) (map wk rs')) as H.
    change (wk r0 :: map wk rs') with (map wk rs) in H.
    apply in_map_iff in H. destruct H as [r [E Hr]]. now exists r. }
  assert (Hbounds : forall r, In r rs -> first <= wk r <= last).
  { intros r Hr. split.
    - apply Zmin_list_le. change (wk r0 :: map wk rs') with (map wk rs).
      now apply in_map.
    - apply Zmax_list_ge. change (wk r0 :: map wk rs') with (map wk rs).
      now apply in_map. }
  assert (Hmod : forall r, wk r mod 7 = 0).
  { intros r. apply week_ending_spec. }
  assert (Hspan : first <= last /\ (last - first) mod 7 = 0).
  { destruct Hfirst as [r1 [Hr1 E1]], Hlast as [r2 [Hr2 E2]].
    pose proof (Hbounds r1 Hr1). pose proof (Hmod r1). pose proof (Hmod r2).
    rewrite E1 in *. rewrite E2 in *. split; [lia | div_lia]. }
  set (n := Z.to_nat ((last - first) / 7)).
  assert (Hn : first + 7 * Z.of_nat n = last).
  { unfold n. rewrite Z2Nat.id by div_lia. div_lia. }
  set (keys := map (fun i => first + 7 * Z.of_nat i) (seq 0 (S n))).
  assert (Hcover : forall r, In r rs -> In (wk r) keys).
  { intros r Hr. destruct (Hbounds r Hr) as [H1 H2].
    apply In_week_bins; [exact H1 | | lia].
    destruct Hfirst as [r1 [_ E1]].
    pose proof (Hmod r). pose proof (Hmod r1). rewrite E1 in *. div_lia. }
  pose proof (NoDup_week_bins first (S n)) as Hnd. fold keys in Hnd.
  exists (map (progress_bucket rs) keys), first, last.
  split; [now apply weekly_progress_DataFrame_of|].
  split; [exact Hfirst|]. split; [exact Hlast|]. split; [exact Hbounds|].
  assert (Hlen : List.length (map (progress_bucket rs) keys) = S n).
  { unfold keys. now rewrite !length_map, length_seq. }
  rewrite Hlen. split; [|split; [|split; [|split]]].
  - rewrite map_map. cbn [week_end progress_bucket]. now rewrite map_id.
  - lia.
  - intros row Hrow. apply in_map_iff in Hrow. destruct Hrow as [k [<- _]].
    reflexivity.
  - rewrite map_map. cbn [progress_calories progress_bucket].
    apply (Zsum_by_key wk caloriesBurned keys rs Hnd Hcover).
  - rewrite map_map. cbn [progress_duration progress_bucket].
    apply (Zsum_by_key wk durationMinutes keys rs Hnd Hcover).
Qed.

Lemma weekly_progress_bins_witness :
  let rs := [mkRecord (mkdate 2026 11 3) "Yoga" 10 100 28 "Female" 110 368;
             mkRecord (mkdate 2025 11 4) "Cycling" 20 180 28 "Female" 130 371] in
  rs <> []
  /\ abs_total caloriesBurned rs <= int64_max
  /\ abs_total durationMinutes rs <= int64_max
  /\ exists rows first last,
       weekly_progress (DataFrame_of rs) = Ok rows
       /\ (exists r, In r rs /\ week_ending (entry_date r) = first)
       /\ (exists r, In r rs /\ week_ending (entry_date r) = last)
       /\ (forall r, In r rs -> first <= week_ending (entry_date r) <= last)
       /\ map week_end rows
          = map (fun i => first + 7 * Z.of_nat i) (seq 0 (List.length rows))
       /\ first + 7 * (Z.of_nat (List.length rows) - 1) = last
       /\ (forall row, In row rows -> row = progress_bucket rs (week_end row))
       /\ Zsum (map progress_calories rows) = total caloriesBurned rs
       /\ Zsum (map progress_duration rows) = total durationMinutes rs.
Proof.
  intros rs.
  assert (H : rs <> []) by discriminate.
  assert (H1 : abs_total caloriesBurned rs <= int64_max)
    by (vm_compute; discriminate).
  assert (H2 : abs_total durationMinutes rs <= int64_max)
    by (vm_compute; discriminate).
  split; [exact H|]. split; [exact H1|]. split; [exact H2|].
  exact (weekly_progress_bins rs H H1 H2).
Defined.

(* ================================================================== *)
(** * Workout types that are read back as missing *)

Lemma logged_with_missing_type_inv (r : WorkoutRecord) :
  logged_with_missing_type r = true ->
  valid_date (entry_date r) = true /\ 1000 <= year (entry_date r)
  /\ in_Timestamp_range (entry_date r) = true /\ is_na (workoutType r) = true
  /\ reads_as_text (entry_gender r) = true /\ numbers_load r = true.
Proof.
  unfold logged_with_missing_type. rewrite !andb_true_iff, Z.leb_le. tauto.
Qed.

Lemma load_data_missing_types (w : World) (rs : RecordSet) :
  disk w = Some (table_of rs) ->
  rs <> [] -> forallb logged_with_missing_type rs = true ->
  exists rest,
    load_data w
    = Ok (("Date", Datetime64 (map (fun r => Some (entry_date r)) rs))
            :: ("Workout Type", Float64 (map (fun _ => None) rs))
            :: ("Duration (mins)", int_column durationMinutes rs)
            :: ("Calories Burned", int_column caloriesBurned rs)
            :: rest).
Proof.
  intros Hd Hrs Hall.
  assert (Hin : forall r, In r rs ->
            valid_date (entry_date r) = true /\ 1000 <= year (entry_date r)
            /\ in_Timestamp_range (entry_date r) = true
            /\ is_na (workoutType r) = true
            /\ reads_as_text (entry_gender r) = true /\ numbers_load r = true).
  { intros r Hr. apply logged_with_missing_type_inv.
    revert r Hr. now apply forallb_forall. }
  unfold load_data. rewrite Hd.
  rewrite (read_csv_rows rs (Float64 (map (fun _ => None) rs))); trivial.
  - cbn [bind getitem String.eqb Ascii.eqb Bool.eqb to_datetime].
    rewrite parse_dates by (intros r Hr; destruct (Hin r Hr); tauto).
    eexists. reflexivity.
  - intros r Hr. destruct (Hin r Hr). tauto.
  - apply infer_column_all_na; [assumption|].
    intros r Hr. destruct (Hin r Hr). tauto.
Qed.

(** X15: when the workout type of every row of the file is one of the
    missing-value markers of [read_csv] (such as ["NA"], which [log_workout]
    accepts), and the other fields of the rows load as they were logged,
    loading succeeds, the frame is not empty, and [create_workout_stats]
    fails with [IndexError] at [mode().iloc[0]]; with it the dashboard; in
    every arithmetic and whatever model would be fitted. *)
Theorem stats_fail_when_every_type_is_missing {F E} `{Floating E} `{Mean E}
    (fit : list Q -> list Q -> LinearRegression F) (w : World) (rs : RecordSet) :
  disk w = Some (table_of rs) ->
  rs <> [] ->
  forallb logged_with_missing_type rs = true ->
  exists data,
    load_data w = Ok data
    /\ len data = List.length rs
    /\ create_workout_stats (E := E) data = Raise IndexError
    /\ dashboard (E := E) fit data w = Raise IndexError.
Proof.
  intros Hd Hrs Hall.
  destruct (load_data_missing_types w rs Hd Hrs Hall) as [rest Hload].
  eexists. split; [exact Hload|].
  assert (Hlen : len (("Date", Datetime64 (map (fun r => Some (entry_date r)) rs))
                        :: ("Workout Type", Float64 (map (fun _ => None) rs))
                        :: ("Duration (mins)", int_column durationMinutes rs)
                        :: ("Calories Burned", int_column caloriesBurned rs)
                        :: rest) = List.length rs).
  { unfold len, series_len, values, opt_value. now rewrite !length_map. }
  split; [exact Hlen|].
  assert (Hstats : create_workout_stats (E := E)
                     (("Date", Datetime64 (map (fun r => Some (entry_date r)) rs))
                        :: ("Workout Type", Float64 (map (fun _ => None) rs))
                        :: ("Duration (mins)", int_column durationMinutes rs)
                        :: ("Calories Burned", int_column caloriesBurned rs)
                        :: rest) = Raise IndexError).
  { unfold create_workout_stats, empty. rewrite Hlen.
    destruct (List.length rs) eqn:El; [destruct rs; [congruence | discriminate]|].
    cbn [Nat.eqb negb getitem String.eqb Ascii.eqb Bool.eqb bind].
    rewrite Series_sum_int_column, Series_mean_int_column.
    cbn [bind Series_mode].
    assert (Enone : dropna (map (fun _ : WorkoutRecord => @None Q) rs) = []).
    { clear. induction rs; simpl; auto. }
    rewrite Enone. reflexivity. }
  split; [exact Hstats|].
  unfold dashboard. rewrite Hstats. reflexivity.
Qed.

Lemma stats_fail_when_every_type_is_missing_witness :
  let w := snd (log_workout "NA" 30 150 28 "Female" 110 368 sample_world) in
  let rs := [mkRecord (mkdate 2026 11 3) "NA" 30 150 28 "Female" 110 368] in
  disk w = Some (table_of rs)
  /\ rs <> []
  /\ forallb logged_with_missing_type rs = true
  /\ exists data,
       load_data w = Ok data
       /\ len data = List.length rs
       /\ create_workout_stats (E := float64) data = Raise IndexError
       /\ dashboard (E := float64) sample_fit data w = Raise IndexError.
Proof.
  intros w rs.
  assert (H1 : disk w = Some (table_of rs)) by reflexivity.
  assert (H2 : rs <> []) by discriminate.
  assert (H3 : forallb logged_with_missing_type rs = true) by reflexivity.
  split; [exact H1|]. split; [exact H2|]. split; [exact H3|].
  exact (stats_fail_when_every_type_is_missing sample_fit w rs H1 H2 H3).
Defined.

(* ================================================================== *)
(** * The range of the adjustments *)

(** X16: in exact arithmetic the adjusted prediction is the base prediction
    times a factor between 0.9 and 1.38, whatever the inputs; so it is
    negative exactly when the base prediction is: nothing clamps it. *)
Theorem predicted_calories_factor
    (model : LinearRegression Q) (duration : Z) (gender : string)
    (heart_rate bmi : Z) :
  (exists k : Q,
     (0.9 <= k <= 1.38)%Q
     /\ (predicted_calories model duration gender heart_rate bmi
         == predict model duration * k)%Q)
  /\ ((predicted_calories model duration gender heart_rate bmi < 0)%Q
      <-> (predict model duration < 0)%Q).
Proof.
  assert (Hk : exists k : Q,
             (0.9 <= k <= 1.38)%Q
             /\ (predicted_calories model duration gender heart_rate bmi
                 == predict model duration * k)%Q).
  { exists ((if String.eqb gender "Male" then 1.2 else 1)
            * (if 120 <? heart_rate then 1.15 else 1)
            * (if 25 <? bmi then 0.9 else 1))%Q.
    unfold predicted_calories. cbn [mul lit Number_Q].
    generalize (predict model duration). intros base.
    destruct (String.eqb gender "Male"), (120 <? heart_rate), (25 <? bmi);
      (split; [split; unfold Qle; simpl; lia | ring]). }
  split; [exact Hk|].
  destruct Hk as [k [[Hlo Hhi] E]]. rewrite E.
  generalize (predict model duration). intros base.
  assert (0 < k)%Q by lra. split; intros H'; nra.
Qed.
